(** * The gRPC timer manager: coordinator state and its critical sections

    A shallow embedding of [src/core/lib/iomgr/timer_manager.cc].  The
    file-level statics of the source become one record, every function
    becomes a computation over that record, and the calls that are
    visible to other components (mutex, condition variables, thread
    start and join, the timer engine, the execution context) are
    recorded in a trace, in program order. *)

From Stdlib Require Import ZArith List Bool Lia.
Import ListNotations.
Open Scope Z_scope.

(** ** Data model *)

(** [uint64_t]: unsigned arithmetic is taken modulo [2^64]. *)
Definition u64_modulus : Z := 2 ^ 64.
Definition u64_max : Z := u64_modulus - 1.
Definition u64_add (a b : Z) : Z := (a + b) mod u64_modulus.
Definition u64_sub (a b : Z) : Z := (a - b) mod u64_modulus.

(** Modelled from the spec: [grpc_core::Timestamp] is declared in a
    header that is not part of the sources at hand.  The spec calls it an
    absolute, monotonic time with a distinguished "infinite future"; it
    is taken here as a count of milliseconds, compared as integers, whose
    largest 64-bit value stands for the infinite future. *)
Definition Timestamp : Type := Z.
Definition InfFuture : Timestamp := 2 ^ 63 - 1.

(** A [completed_thread*].  The linked list headed by
    [g_completed_threads] is the list of these handles, most recently
    pushed first. *)
Definition handle : Type := nat.

(** The statics of the source (lines 37-63), except the mutex and the two
    condition variables, which only appear in traces.  The two [int]
    counters are mathematical integers: signed overflow is undefined in
    C++, and below the machine bound the two agree. *)
Record coordinator : Type := mkCoordinator {
  g_threaded : bool;
  g_start_threaded : bool;
  g_thread_count : Z;
  g_waiter_count : Z;
  g_completed_threads : list handle;
  g_kicked : bool;
  g_has_timed_waiter : bool;
  g_timed_waiter_deadline : Timestamp;
  g_timed_waiter_generation : Z;
  g_wakeups : Z
}.

(** Static initialisation: everything zero, except [g_start_threaded]. *)
Definition static_init : coordinator :=
  mkCoordinator false true 0 0 [] false false 0 0 0.

Definition set_threaded (b : bool) (s : coordinator) : coordinator :=
  mkCoordinator b (g_start_threaded s) (g_thread_count s) (g_waiter_count s)
    (g_completed_threads s) (g_kicked s) (g_has_timed_waiter s)
    (g_timed_waiter_deadline s) (g_timed_waiter_generation s) (g_wakeups s).

Definition set_start_threaded (b : bool) (s : coordinator) : coordinator :=
  mkCoordinator (g_threaded s) b (g_thread_count s) (g_waiter_count s)
    (g_completed_threads s) (g_kicked s) (g_has_timed_waiter s)
    (g_timed_waiter_deadline s) (g_timed_waiter_generation s) (g_wakeups s).

Definition set_thread_count (n : Z) (s : coordinator) : coordinator :=
  mkCoordinator (g_threaded s) (g_start_threaded s) n (g_waiter_count s)
    (g_completed_threads s) (g_kicked s) (g_has_timed_waiter s)
    (g_timed_waiter_deadline s) (g_timed_waiter_generation s) (g_wakeups s).

Definition set_waiter_count (n : Z) (s : coordinator) : coordinator :=
  mkCoordinator (g_threaded s) (g_start_threaded s) (g_thread_count s) n
    (g_completed_threads s) (g_kicked s) (g_has_timed_waiter s)
    (g_timed_waiter_deadline s) (g_timed_waiter_generation s) (g_wakeups s).

Definition set_completed_threads (l : list handle) (s : coordinator)
  : coordinator :=
  mkCoordinator (g_threaded s) (g_start_threaded s) (g_thread_count s)
    (g_waiter_count s) l (g_kicked s) (g_has_timed_waiter s)
    (g_timed_waiter_deadline s) (g_timed_waiter_generation s) (g_wakeups s).

Definition set_kicked (b : bool) (s : coordinator) : coordinator :=
  mkCoordinator (g_threaded s) (g_start_threaded s) (g_thread_count s)
    (g_waiter_count s) (g_completed_threads s) b (g_has_timed_waiter s)
    (g_timed_waiter_deadline s) (g_timed_waiter_generation s) (g_wakeups s).

Definition set_has_timed_waiter (b : bool) (s : coordinator) : coordinator :=
  mkCoordinator (g_threaded s) (g_start_threaded s) (g_thread_count s)
    (g_waiter_count s) (g_completed_threads s) (g_kicked s) b
    (g_timed_waiter_deadline s) (g_timed_waiter_generation s) (g_wakeups s).

Definition set_timed_waiter_deadline (t : Timestamp) (s : coordinator)
  : coordinator :=
  mkCoordinator (g_threaded s) (g_start_threaded s) (g_thread_count s)
    (g_waiter_count s) (g_completed_threads s) (g_kicked s)
    (g_has_timed_waiter s) t (g_timed_waiter_generation s) (g_wakeups s).

Definition set_timed_waiter_generation (g : Z) (s : coordinator)
  : coordinator :=
  mkCoordinator (g_threaded s) (g_start_threaded s) (g_thread_count s)
    (g_waiter_count s) (g_completed_threads s) (g_kicked s)
    (g_has_timed_waiter s) (g_timed_waiter_deadline s) g (g_wakeups s).

Definition set_wakeups (w : Z) (s : coordinator) : coordinator :=
  mkCoordinator (g_threaded s) (g_start_threaded s) (g_thread_count s)
    (g_waiter_count s) (g_completed_threads s) (g_kicked s)
    (g_has_timed_waiter s) (g_timed_waiter_deadline s)
    (g_timed_waiter_generation s) w.

(** ** Effects *)

Inductive condvar : Type := g_cv_wait | g_cv_shutdown.

(** What a function does to the world outside the coordinator record. *)
Inductive event : Type :=
| MuInit
| MuDestroy
| MuLock
| MuUnlock
| CvInit (cv : condvar)
| CvDestroy (cv : condvar)
| CvSignal (cv : condvar)
| CvBroadcast (cv : condvar)
| CvWait (cv : condvar) (deadline : Timestamp)
| ThreadStart
| ThreadJoin (ct : handle)
| ExecCtxFlush
| ConsumeKick.

Definition trace : Type := list event.

Definition condvar_eqb (a b : condvar) : bool :=
  match a, b with
  | g_cv_wait, g_cv_wait | g_cv_shutdown, g_cv_shutdown => true
  | _, _ => false
  end.

Definition is_signal (cv : condvar) (e : event) : bool :=
  match e with CvSignal c => condvar_eqb c cv | _ => false end.
Definition is_broadcast (cv : condvar) (e : event) : bool :=
  match e with CvBroadcast c => condvar_eqb c cv | _ => false end.
Definition is_cv_wait (e : event) : bool :=
  match e with CvWait _ _ => true | _ => false end.
Definition is_thread_start (e : event) : bool :=
  match e with ThreadStart => true | _ => false end.
Definition is_consume_kick (e : event) : bool :=
  match e with ConsumeKick => true | _ => false end.

Definition count (p : event -> bool) (tr : trace) : nat :=
  length (filter p tr).

(** Why a call did not come back. *)
Inductive halt : Type :=
| Parked (cv : condvar)   (* asleep on a condition variable, never woken *)
| Crashed.                (* a failed CHECK *)

Inductive result (A : Type) : Type :=
| Ret (a : A) (s : coordinator) (tr : trace)
| Halt (h : halt) (s : coordinator) (tr : trace).
Arguments Ret {A} a s tr.
Arguments Halt {A} h s tr.

(** A computation over the coordinator: state passing, a trace written
    along the way, and the possibility of never returning. *)
Definition M (A : Type) : Type := coordinator -> result A.

Definition ret {A} (a : A) : M A := fun s => Ret a s [].

Definition bind {A B} (m : M A) (k : A -> M B) : M B := fun s =>
  match m s with
  | Ret a s1 tr1 =>
      match k a s1 with
      | Ret b s2 tr2 => Ret b s2 (tr1 ++ tr2)
      | Halt h s2 tr2 => Halt h s2 (tr1 ++ tr2)
      end
  | Halt h s1 tr1 => Halt h s1 tr1
  end.

Declare Scope coord_scope.
Delimit Scope coord_scope with coord.
Notation "x <- m ;; k" := (bind m (fun x => k))
  (at level 61, m at next level, right associativity) : coord_scope.
Notation "m ;; k" := (bind m (fun _ => k))
  (at level 61, right associativity) : coord_scope.
Open Scope coord_scope.

Definition get {A} (f : coordinator -> A) : M A := fun s => Ret (f s) s [].
Definition modify (f : coordinator -> coordinator) : M unit :=
  fun s => Ret tt (f s) [].
Definition emit (e : event) : M unit := fun s => Ret tt s [e].
Definition when (b : bool) (m : M unit) : M unit := if b then m else ret tt.
Definition CHECK (b : bool) : M unit :=
  if b then ret tt else fun s => Halt Crashed s [].

Definition returned {A} (r : result A) : bool :=
  match r with Ret _ _ _ => true | Halt _ _ _ => false end.
Definition state_of {A} (r : result A) : coordinator :=
  match r with Ret _ s _ | Halt _ s _ => s end.
Definition trace_of {A} (r : result A) : trace :=
  match r with Ret _ _ tr | Halt _ _ tr => tr end.
Definition value_of {A} (r : result A) : option A :=
  match r with Ret a _ _ => Some a | Halt _ _ _ => None end.

(** Whatever the other threads do to the coordinator while this thread
    does not hold [g_mu]. *)
Definition interference : Type := coordinator -> coordinator.

Definition gpr_mu_lock : M unit := emit MuLock.
Definition gpr_mu_unlock : M unit := emit MuUnlock.
Definition gpr_cv_signal (cv : condvar) : M unit := emit (CvSignal cv).
Definition gpr_cv_broadcast (cv : condvar) : M unit := emit (CvBroadcast cv).

(** [gpr_cv_wait] releases the mutex, sleeps, and holds the mutex again
    when it returns.  [wake] is [None] when the sleeper is never woken,
    and otherwise what the other threads did in the meantime. *)
Definition gpr_cv_wait (cv : condvar) (deadline : Timestamp)
    (wake : option interference) : M unit := fun s =>
  match wake with
  | Some others => Ret tt (others s) [CvWait cv deadline]
  | None => Halt (Parked cv) s [CvWait cv deadline]
  end.

(** A stretch of code between [gpr_mu_unlock] and the next
    [gpr_mu_lock]. *)
Definition unlocked (others : interference) : M unit := modify others.

(** The loop of lines 72-77: every handle of the detached list is joined
    and freed, head first. *)
Definition join_all (to_gc : list handle) : M unit :=
  fun s => Ret tt s (map ThreadJoin to_gc).

(** ** The functions of timer_manager.cc *)

(** Lines 67-80.  Called with the mutex held; [during_join] is what
    happens while the handles are joined without it. *)
Definition gc_completed_threads (during_join : interference) : M unit :=
  to_gc <- get g_completed_threads ;;
  match to_gc with
  | [] => ret tt
  | _ :: _ =>
      modify (set_completed_threads []) ;;
      gpr_mu_unlock ;;
      join_all to_gc ;;
      unlocked during_join ;;
      gpr_mu_lock
  end.

(** Lines 82-92. *)
Definition start_timer_thread_and_unlock : M unit :=
  threaded <- get g_threaded ;;
  CHECK threaded ;;
  modify (fun s => set_waiter_count (g_waiter_count s + 1) s) ;;
  modify (fun s => set_thread_count (g_thread_count s + 1) s) ;;
  gpr_mu_unlock ;;
  emit ThreadStart.

(** Lines 335-343. *)
Definition grpc_kick_poller : M unit :=
  gpr_mu_lock ;;
  modify (set_kicked true) ;;
  modify (set_has_timed_waiter false) ;;
  modify (set_timed_waiter_deadline InfFuture) ;;
  modify (fun s =>
    set_timed_waiter_generation (u64_add (g_timed_waiter_generation s) 1) s) ;;
  gpr_cv_signal g_cv_wait ;;
  gpr_mu_unlock.

(** Lines 99-117 of [run_some_timers]: the first critical section. *)
Definition run_some_timers_begin : M unit :=
  gpr_mu_lock ;;
  modify (fun s => set_waiter_count (g_waiter_count s - 1) s) ;;
  waiters <- get g_waiter_count ;;
  threaded <- get g_threaded ;;
  if (waiters =? 0) && threaded then
    start_timer_thread_and_unlock
  else
    has_timed_waiter <- get g_has_timed_waiter ;;
    when (negb has_timed_waiter) (gpr_cv_signal g_cv_wait) ;;
    gpr_mu_unlock.

(** Lines 121-126 of [run_some_timers]: the second critical section. *)
Definition run_some_timers_end (during_join : interference) : M unit :=
  gpr_mu_lock ;;
  gc_completed_threads during_join ;;
  modify (fun s => set_waiter_count (g_waiter_count s + 1) s) ;;
  gpr_mu_unlock.

(** Lines 99-127.  [during_flush] is what the other threads do while the
    execution context is flushed. *)
Definition run_some_timers (during_flush during_join : interference)
  : M unit :=
  run_some_timers_begin ;;
  emit ExecCtxFlush ;;
  unlocked during_flush ;;
  run_some_timers_end during_join.

(** Lines 159-179 of [wait_until]: the election.  Returns the two locals
    [my_timed_waiter_generation] and [next] as they are when the thread
    goes to sleep. *)
Definition elect_timed_waiter (next : Timestamp) : M (Z * Timestamp) :=
  generation <- get g_timed_waiter_generation ;;
  let my_timed_waiter_generation := u64_sub generation 1 in
  if negb (next =? InfFuture) then
    has_timed_waiter <- get g_has_timed_waiter ;;
    deadline <- get g_timed_waiter_deadline ;;
    if negb has_timed_waiter || (next <? deadline) then
      modify (fun s =>
        set_timed_waiter_generation
          (u64_add (g_timed_waiter_generation s) 1) s) ;;
      my_timed_waiter_generation <- get g_timed_waiter_generation ;;
      modify (set_has_timed_waiter true) ;;
      modify (set_timed_waiter_deadline next) ;;
      ret (my_timed_waiter_generation, next)
    else
      ret (my_timed_waiter_generation, InfFuture)
  else
    ret (my_timed_waiter_generation, next).

(** Lines 195-199 of [wait_until]: what the thread does first when
    [gpr_cv_wait] has returned. *)
Definition timed_waiter_wakeup (my_timed_waiter_generation : Z) : M unit :=
  generation <- get g_timed_waiter_generation ;;
  when (my_timed_waiter_generation =? generation)
    (modify (fun s => set_wakeups (u64_add (g_wakeups s) 1) s) ;;
     modify (set_has_timed_waiter false) ;;
     modify (set_timed_waiter_deadline InfFuture)).

(** Lines 204-210 of [wait_until]. *)
Definition wait_until_finish : M bool :=
  kicked <- get g_kicked ;;
  when kicked (emit ConsumeKick ;; modify (set_kicked false)) ;;
  gpr_mu_unlock ;;
  ret true.

(** Lines 132-211. *)
Definition wait_until (next : Timestamp) (wake : option interference)
  : M bool :=
  gpr_mu_lock ;;
  threaded <- get g_threaded ;;
  if negb threaded then
    gpr_mu_unlock ;;
    ret false
  else
    kicked <- get g_kicked ;;
    (if negb kicked then
       locals <- elect_timed_waiter next ;;
       gpr_cv_wait g_cv_wait (snd locals) wake ;;
       timed_waiter_wakeup (fst locals)
     else ret tt) ;;
    wait_until_finish.

(** Lines 246-259. *)
Definition timer_thread_cleanup (ct : handle) : M unit :=
  gpr_mu_lock ;;
  modify (fun s => set_waiter_count (g_waiter_count s - 1) s) ;;
  modify (fun s => set_thread_count (g_thread_count s - 1) s) ;;
  threads <- get g_thread_count ;;
  when (0 =? threads) (gpr_cv_signal g_cv_shutdown) ;;
  modify (fun s => set_completed_threads (ct :: g_completed_threads s) s) ;;
  gpr_mu_unlock.

(** Lines 270-278. *)
Definition start_threads : M unit :=
  gpr_mu_lock ;;
  threaded <- get g_threaded ;;
  if negb threaded then
    modify (set_threaded true) ;;
    start_timer_thread_and_unlock
  else
    gpr_mu_unlock.

(** Lines 280-293. *)
Definition grpc_timer_manager_init : M unit :=
  emit MuInit ;;
  emit (CvInit g_cv_wait) ;;
  emit (CvInit g_cv_shutdown) ;;
  modify (set_threaded false) ;;
  modify (set_thread_count 0) ;;
  modify (set_waiter_count 0) ;;
  modify (set_completed_threads []) ;;
  modify (set_has_timed_waiter false) ;;
  modify (set_timed_waiter_deadline InfFuture) ;;
  start_threaded <- get g_start_threaded ;;
  when start_threaded start_threads.

(** One turn of the loop of [stop_threads] (lines 304-309): the sleep on
    [g_cv_shutdown], and the join of the handles found afterwards. *)
Record turn : Type := mkTurn {
  while_asleep : interference;
  while_joining : interference
}.

(** The loop of lines 304-309.  [turns] lists the wake-ups of the
    stopping thread; when it is used up and workers are still counted,
    the thread sleeps on. *)
Fixpoint stop_threads_loop (turns : list turn) : M unit :=
  threads <- get g_thread_count ;;
  if 0 <? threads then
    match turns with
    | [] => gpr_cv_wait g_cv_shutdown InfFuture None
    | t :: turns' =>
        gpr_cv_wait g_cv_shutdown InfFuture (Some (while_asleep t)) ;;
        gc_completed_threads (while_joining t) ;;
        stop_threads_loop turns'
    end
  else ret tt.

(** Lines 295-313. *)
Definition stop_threads (turns : list turn) : M unit :=
  gpr_mu_lock ;;
  threaded <- get g_threaded ;;
  (if threaded then
     modify (set_threaded false) ;;
     gpr_cv_broadcast g_cv_wait ;;
     stop_threads_loop turns
   else ret tt) ;;
  modify (set_wakeups 0) ;;
  gpr_mu_unlock.

(** Lines 315-321. *)
Definition grpc_timer_manager_shutdown (turns : list turn) : M unit :=
  stop_threads turns ;;
  emit MuDestroy ;;
  emit (CvDestroy g_cv_wait) ;;
  emit (CvDestroy g_cv_shutdown).

(** Lines 323-329. *)
Definition grpc_timer_manager_set_threading (enabled : bool)
    (turns : list turn) : M unit :=
  if enabled then start_threads else stop_threads turns.

(** Lines 331-333. *)
Definition grpc_timer_manager_set_start_threaded (enabled : bool) : M unit :=
  modify (set_start_threaded enabled).

(** Line 345. *)
Definition grpc_timer_manager_get_wakeups_testonly : M Z := get g_wakeups.

(** The state a woken sleeper leaves behind, given the generation it
    holds and the state it wakes up in. *)
Definition after_wakeup (my : Z) (sw : coordinator) : coordinator :=
  if my =? g_timed_waiter_generation sw
  then set_timed_waiter_deadline InfFuture
         (set_has_timed_waiter false
            (set_wakeups (u64_add (g_wakeups sw) 1) sw))
  else sw.

(** Whether the calling thread holds [g_mu] at the end of a trace, given
    whether it held it at the start.  [gpr_cv_wait] hands the mutex back
    on return. *)
Fixpoint mutex_held (held : bool) (tr : trace) : bool :=
  match tr with
  | [] => held
  | MuLock :: tr' => mutex_held true tr'
  | MuUnlock :: tr' => mutex_held false tr'
  | _ :: tr' => mutex_held held tr'
  end.

(** ** The other threads *)

(** The critical sections through which another thread can change the
    coordinator while this one does not hold the mutex: each is a
    stretch of one of the functions above, from the moment the mutex is
    taken to the moment it is let go. *)
Inductive action : Type :=
| OtherKick
| OtherWaitEnter (next : Timestamp)
| OtherWaitResume (my_timed_waiter_generation : Z)
| OtherRunBegin
| OtherRunEnd
| OtherCleanup (ct : handle)
| OtherStart
| OtherStopEnter
| OtherStopResume
| OtherSetStartThreaded (enabled : bool).

Definition no_interference : interference := fun s => s.

Definition others_step (a : action) : interference := fun s =>
  match a with
  | OtherKick => state_of (grpc_kick_poller s)
  | OtherWaitEnter next => state_of (wait_until next None s)
  | OtherWaitResume my =>
      state_of ((timed_waiter_wakeup my ;; wait_until_finish) s)
  | OtherRunBegin => state_of (run_some_timers_begin s)
  | OtherRunEnd => state_of (run_some_timers_end no_interference s)
  | OtherCleanup ct => state_of (timer_thread_cleanup ct s)
  | OtherStart => state_of (start_threads s)
  | OtherStopEnter => state_of (stop_threads [] s)
  | OtherStopResume =>
      state_of ((gc_completed_threads no_interference ;;
                 modify (set_wakeups 0) ;; gpr_mu_unlock) s)
  | OtherSetStartThreaded enabled =>
      state_of (grpc_timer_manager_set_start_threaded enabled s)
  end.

Fixpoint others_run (l : list action) : interference := fun s =>
  match l with
  | [] => s
  | a :: l' => others_run l' (others_step a s)
  end.

(** The state a new worker is born into when [start_timer_thread_and_unlock]
    runs in a threaded coordinator. *)
Definition spawned (s : coordinator) : coordinator :=
  set_thread_count (g_thread_count s + 1)
    (set_waiter_count (g_waiter_count s + 1) s).

(** [n] calls of [grpc_kick_poller] in a row. *)
Definition kicks (n : N) : interference := N.iter n (others_step OtherKick).

(** ** Sample states *)

(** A running pool: one worker, idle, no timed waiter, no pending kick. *)
Definition idle_pool : coordinator :=
  mkCoordinator true true 1 1 [] false false InfFuture 0 0.

(** A pool in which a worker sleeps until time 50. *)
Definition pool_with_timed_waiter : coordinator :=
  mkCoordinator true true 2 2 [] false true 50 1 0.

(** A coordinator that is not threaded and has counted seven wake-ups. *)
Definition stopped_after_seven_wakeups : coordinator :=
  mkCoordinator false true 0 0 [] false false InfFuture 9 7.

(** The only worker of a pool being stopped wakes from its sleep (it held
    generation [my]), finds the pool no longer threaded on its next call
    of [wait_until], and leaves, depositing handle 0. *)
Definition last_worker_leaves (my : Z) : turn :=
  mkTurn
    (others_run [OtherWaitResume my; OtherWaitEnter InfFuture; OtherCleanup 0%nat])
    no_interference.

(** A running pool with a kick pending. *)
Definition kicked_pool : coordinator :=
  mkCoordinator true true 2 2 [] true true 50 4 2.

(** ** The worker thread *)

(** Modelled from the spec: the result type of [grpc_timer_check] is
    declared in timer.h, which is not among the sources at hand; its
    values are the three that the switch of [timer_main_loop] names. *)
Inductive grpc_timer_check_result : Type :=
| GRPC_TIMERS_NOT_CHECKED
| GRPC_TIMERS_CHECKED_AND_EMPTY
| GRPC_TIMERS_FIRED.

(** One pass through the loop of [timer_main_loop], as far as it depends
    on the world outside the coordinator: what the other threads do
    while the timer engine is consulted, what the engine answers and
    leaves in [next], and what happens while this thread sleeps, flushes
    or joins. *)
Record pass : Type := mkPass {
  while_checking : interference;
  check_result : grpc_timer_check_result;
  check_next : Timestamp;
  wake_up : option interference;
  while_flushing : interference;
  while_collecting : interference
}.

(** Whether the loop has come to its [return] by the end of the passes
    it is given. *)
Inductive loop_status : Type := LoopReturned | LoopRunning.

(** Lines 213-244.  The loop has no exit of its own but the [return]
    after [wait_until]; it is followed through the passes listed. *)
Fixpoint timer_main_loop (passes : list pass) : M loop_status :=
  match passes with
  | [] => ret LoopRunning
  | p :: passes' =>
      unlocked (while_checking p) ;;
      match check_result p with
      | GRPC_TIMERS_FIRED =>
          run_some_timers (while_flushing p) (while_collecting p) ;;
          timer_main_loop passes'
      | checked =>
          let next :=
            match checked with
            | GRPC_TIMERS_NOT_CHECKED => InfFuture
            | _ => check_next p
            end in
          continue <- wait_until next (wake_up p) ;;
          if negb continue then ret LoopReturned
          else timer_main_loop passes'
      end
  end.

(** Lines 261-268. *)
Definition timer_thread (ct : handle) (passes : list pass)
  : M loop_status :=
  status <- timer_main_loop passes ;;
  match status with
  | LoopReturned => timer_thread_cleanup ct ;; ret LoopReturned
  | LoopRunning => ret LoopRunning
  end.

(** ** The pool of workers *)

(** Where a worker thread stands between two critical sections. *)
Inductive phase : Type :=
| Probing      (* in [timer_main_loop], outside the two functions it calls *)
| Asleep (my_timed_waiter_generation : Z)   (* in [gpr_cv_wait], line 186 *)
| Flushing     (* in [run_some_timers], lines 118-120 *)
| Joining      (* in [gc_completed_threads], lines 71-77 *)
| Leaving      (* [wait_until] has returned false *)
| Gone.        (* [timer_thread_cleanup] is done *)

(** The coordinator together with the worker threads ever started; a
    thread's position in the list serves as its handle. *)
Record pool : Type := mkPool {
  shared : coordinator;
  workers : list phase
}.

Fixpoint set_phase (i : nat) (ph : phase) (l : list phase) : list phase :=
  match l, i with
  | [], _ => []
  | _ :: l', O => ph :: l'
  | x :: l', S i' => x :: set_phase i' ph l'
  end.

(** The threads a call has started, each at the top of its loop. *)
Definition started {A} (r : result A) : list phase :=
  repeat Probing (count is_thread_start (trace_of r)).

(** One critical section, run by one thread: a worker (the first five),
    a caller of [grpc_kick_poller], of [start_threads] or of
    [grpc_timer_manager_set_start_threaded], or the thread in
    [stop_threads], which enters, may wake and collect, and in the end
    resumes to reset [g_wakeups]. *)
Inductive move : Type :=
| Check (i : nat) (answer : grpc_timer_check_result) (next : Timestamp)
| Wake (i : nat)
| Collect (i : nat)
| Rejoin (i : nat)
| Exit (i : nat)
| Kick
| Start
| StopEnter
| StopResume
| SetStartThreaded (enabled : bool)
| StopCollect.

(** A worker that is [Probing] has an answer of the timer engine and
    runs to where it next lets go of the mutex. *)
Definition check_move (i : nat) (answer : grpc_timer_check_result)
    (next : Timestamp) (p : pool) : option pool :=
  match answer with
  | GRPC_TIMERS_FIRED =>
      let r := run_some_timers_begin (shared p) in
      Some (mkPool (state_of r)
              (set_phase i Flushing (workers p) ++ started r))
  | checked =>
      let next :=
        match checked with
        | GRPC_TIMERS_NOT_CHECKED => InfFuture
        | _ => next
        end in
      match wait_until next None (shared p) with
      | Ret true s' _ => Some (mkPool s' (workers p))
      | Ret false s' _ => Some (mkPool s' (set_phase i Leaving (workers p)))
      | Halt (Parked _) s' _ =>
          match elect_timed_waiter next (shared p) with
          | Ret locals _ _ =>
              Some (mkPool s' (set_phase i (Asleep (fst locals)) (workers p)))
          | Halt _ _ _ => None
          end
      | Halt Crashed _ _ => None
      end
  end.

(** [None] when the thread named is not at a place where it could make
    the move. *)
Definition pool_step (m : move) (p : pool) : option pool :=
  let s := shared p in
  match m with
  | Check i answer next =>
      match nth_error (workers p) i with
      | Some Probing => check_move i answer next p
      | _ => None
      end
  | Wake i =>
      match nth_error (workers p) i with
      | Some (Asleep my) =>
          Some (mkPool
                  (state_of ((timed_waiter_wakeup my ;; wait_until_finish) s))
                  (set_phase i Probing (workers p)))
      | _ => None
      end
  | Collect i =>
      match nth_error (workers p) i with
      | Some Flushing =>
          match g_completed_threads s with
          | [] =>
              Some (mkPool (state_of (run_some_timers_end no_interference s))
                      (set_phase i Probing (workers p)))
          | _ :: _ =>
              Some (mkPool
                      (state_of ((gpr_mu_lock ;;
                                  gc_completed_threads no_interference) s))
                      (set_phase i Joining (workers p)))
          end
      | _ => None
      end
  | Rejoin i =>
      match nth_error (workers p) i with
      | Some Joining =>
          Some (mkPool
                  (state_of
                     ((modify (fun s => set_waiter_count (g_waiter_count s + 1) s) ;;
                       gpr_mu_unlock) s))
                  (set_phase i Probing (workers p)))
      | _ => None
      end
  | Exit i =>
      match nth_error (workers p) i with
      | Some Leaving =>
          Some (mkPool (state_of (timer_thread_cleanup i s))
                  (set_phase i Gone (workers p)))
      | _ => None
      end
  | Kick => Some (mkPool (state_of (grpc_kick_poller s)) (workers p))
  | Start =>
      let r := start_threads s in
      Some (mkPool (state_of r) (workers p ++ started r))
  | StopEnter => Some (mkPool (state_of (stop_threads [] s)) (workers p))
  | StopResume => Some (mkPool (others_step OtherStopResume s) (workers p))
  | SetStartThreaded enabled =>
      Some (mkPool
              (state_of (grpc_timer_manager_set_start_threaded enabled s))
              (workers p))
  | StopCollect =>
      Some (mkPool (state_of (gc_completed_threads no_interference s))
              (workers p))
  end.

Fixpoint pool_run (ms : list move) (p : pool) : option pool :=
  match ms with
  | [] => Some p
  | m :: ms' =>
      match pool_step m p with
      | Some p' => pool_run ms' p'
      | None => None
      end
  end.

(** The pool that [grpc_timer_manager_init] leaves. *)
Definition boot (s : coordinator) : pool :=
  let r := grpc_timer_manager_init s in
  mkPool (state_of r) (started r).

(** Counting the workers by what they are doing. *)
Fixpoint tally (f : phase -> Z) (l : list phase) : Z :=
  match l with
  | [] => 0
  | ph :: l' => f ph + tally f l'
  end.

Definition is_live (ph : phase) : Z :=
  match ph with Gone => 0 | _ => 1 end.

Definition is_waiter (ph : phase) : Z :=
  match ph with Probing | Asleep _ | Leaving => 1 | _ => 0 end.

Definition holds (generation : Z) (ph : phase) : Z :=
  match ph with
  | Asleep my => if my =? generation then 1 else 0
  | _ => 0
  end.

(** A sleeper's own generation was taken at or before the current one,
    or is what [g - 1] gives at [g = 0]. *)
Definition is_past (generation : Z) (ph : phase) : Prop :=
  match ph with
  | Asleep my => my <= generation \/ my = u64_max
  | _ => True
  end.

(** A pass in which the timer engine reports nothing due before time
    50 and nobody wakes the thread. *)
Definition quiet_pass : pass :=
  mkPass no_interference GRPC_TIMERS_CHECKED_AND_EMPTY 50 None
    no_interference no_interference.

(** A pass in which the timer engine was busy with another caller, and
    left 50 in [next]. *)
Definition contended_pass : pass :=
  mkPass no_interference GRPC_TIMERS_NOT_CHECKED 50 None
    no_interference no_interference.

(** The coordinator as a thread leaves it when it goes to sleep as the
    timed waiter for [next] (lines 168-170). *)
Definition elected (next : Timestamp) (s : coordinator) : coordinator :=
  set_timed_waiter_deadline next
    (set_has_timed_waiter true
       (set_timed_waiter_generation
          (u64_add (g_timed_waiter_generation s) 1) s)).

(** What the loop of [stop_threads] does to the outside: it waits on
    [g_cv_shutdown], and lets go of the mutex to join. *)
Definition is_stop_loop_event (e : event) : bool :=
  match e with
  | CvWait g_cv_shutdown _ | MuLock | MuUnlock | ThreadJoin _ => true
  | _ => false
  end.

Definition is_mu_destroy (e : event) : bool :=
  match e with MuDestroy => true | _ => false end.

(** Interference that does not put anything on, or take anything off,
    the list of completed threads. *)
Definition leaves_completed_threads (others : interference) : Prop :=
  forall s, g_completed_threads (others s) = g_completed_threads s.

(** The two counters say how many workers there are and how many of
    them are not busy running timers. *)
Definition counts_agree (p : pool) : Prop :=
  g_thread_count (shared p) = tally is_live (workers p) /\
  g_waiter_count (shared p) = tally is_waiter (workers p).

(** The timed waiter is known by the generation: [g_has_timed_waiter] is
    set exactly when one sleeper holds the current generation, and no
    two do.  [room] is how many more increments the generation can take
    before it wraps. *)
Definition timed_waiter_agrees (room : Z) (p : pool) : Prop :=
  let generation := g_timed_waiter_generation (shared p) in
  0 <= generation /\
  generation + room < u64_max /\
  Forall (is_past generation) (workers p) /\
  tally (holds generation) (workers p) =
    (if g_has_timed_waiter (shared p) then 1 else 0).

(** A pool at work: a timed sleep cut short by a kick, timers firing, a
    second worker started and put to sleep, a stop, and both workers
    leaving. *)
Definition busy_day : list move :=
  [Check 0 GRPC_TIMERS_CHECKED_AND_EMPTY 100; Kick; Wake 0;
   Check 0 GRPC_TIMERS_FIRED 0; Check 1 GRPC_TIMERS_CHECKED_AND_EMPTY 70;
   Collect 0; Check 0 GRPC_TIMERS_NOT_CHECKED 20; StopEnter;
   Wake 1; Wake 0; Check 1 GRPC_TIMERS_CHECKED_AND_EMPTY 90; Exit 1;
   StopCollect; Check 0 GRPC_TIMERS_CHECKED_AND_EMPTY 90; Exit 0;
   StopResume].

(** The coordinator as the thread in [stop_threads] finds it at the top
    of its loop after one more turn: it has slept on [g_cv_shutdown] and
    has collected the completed threads (lines 305-308). *)
Definition after_turn (t : turn) (s : coordinator) : coordinator :=
  state_of (gc_completed_threads (while_joining t) (while_asleep t s)).

(** Whether one of the wake-ups listed finds no worker counted any
    more. *)
Fixpoint drains (turns : list turn) (s : coordinator) : bool :=
  if 0 <? g_thread_count s then
    match turns with
    | [] => false
    | t :: turns' => drains turns' (after_turn t s)
    end
  else true.

(** A pool that has just been told to stop: its one worker is still
    counted. *)
Definition stopping_pool : coordinator :=
  mkCoordinator false true 1 1 [] false false InfFuture 0 0.

(** A pass in which timers have fired. *)
Definition fired_pass : pass :=
  mkPass no_interference GRPC_TIMERS_FIRED 50 None
    no_interference no_interference.

(** ** Theorems *)

Arguments u64_add : simpl never.
Arguments u64_sub : simpl never.
Arguments InfFuture : simpl never.

(** Symbolic execution of a computation on a state given field by
    field. *)
Ltac run_once :=
  cbv [grpc_kick_poller gc_completed_threads start_timer_thread_and_unlock
       run_some_timers_begin run_some_timers_end run_some_timers
       elect_timed_waiter timed_waiter_wakeup wait_until_finish wait_until
       timer_thread_cleanup start_threads grpc_timer_manager_init
       stop_threads grpc_timer_manager_shutdown
       grpc_timer_manager_set_threading
       grpc_timer_manager_set_start_threaded
       grpc_timer_manager_get_wakeups_testonly
       gpr_mu_lock gpr_mu_unlock gpr_cv_signal gpr_cv_broadcast gpr_cv_wait
       join_all
       unlocked CHECK when get modify emit bind ret spawned no_interference
       set_threaded set_start_threaded set_thread_count set_waiter_count
       set_completed_threads set_kicked set_has_timed_waiter
       set_timed_waiter_deadline set_timed_waiter_generation set_wakeups
       g_threaded g_start_threaded g_thread_count g_waiter_count
       g_completed_threads g_kicked g_has_timed_waiter
       g_timed_waiter_deadline g_timed_waiter_generation g_wakeups
       state_of trace_of value_of returned
       negb orb andb fst snd app];
  cbn [stop_threads_loop].
Ltac run := repeat (progress run_once).

Lemma u64_sub_1_neq (g : Z) : u64_sub g 1 <> g.
Proof.
  unfold u64_sub, u64_modulus. intro H.
  assert (0 < 2 ^ 64) by lia.
  pose proof (Z.mod_pos_bound (g - 1) (2 ^ 64) ltac:(lia)) as Hb.
  rewrite H in Hb.
  destruct (Z.eq_dec g 0) as [-> | Hnz].
  - vm_compute in H. discriminate.
  - rewrite Z.mod_small in H by lia. lia.
Qed.

Lemma u64_add_1_small (g : Z) :
  0 <= g < u64_max -> u64_add g 1 = g + 1.
Proof.
  unfold u64_add, u64_max, u64_modulus. intros H.
  apply Z.mod_small. lia.
Qed.

(** C1.  Whatever the coordinator holds, [grpc_kick_poller] returns,
    having set [g_kicked], cleared [g_has_timed_waiter], put
    [g_timed_waiter_deadline] at the infinite future, incremented the
    64-bit [g_timed_waiter_generation] by one, and signalled [g_cv_wait]
    once, without any broadcast; every other field is as before. *)
Theorem kick_poller_effect (s : coordinator) :
  exists s' tr,
    grpc_kick_poller s = Ret tt s' tr /\
    g_kicked s' = true /\
    g_has_timed_waiter s' = false /\
    g_timed_waiter_deadline s' = InfFuture /\
    g_timed_waiter_generation s' =
      (g_timed_waiter_generation s + 1) mod 2 ^ 64 /\
    tr = [MuLock; CvSignal g_cv_wait; MuUnlock] /\
    count (is_signal g_cv_wait) tr = 1%nat /\
    count (is_broadcast g_cv_wait) tr = 0%nat /\
    g_threaded s' = g_threaded s /\
    g_start_threaded s' = g_start_threaded s /\
    g_thread_count s' = g_thread_count s /\
    g_waiter_count s' = g_waiter_count s /\
    g_wakeups s' = g_wakeups s /\
    g_completed_threads s' = g_completed_threads s.
Proof.
  destruct s as [th st tc wc ct k h d g w].
  eexists; eexists; split; [reflexivity|].
  run. repeat split.
Qed.

(** The election leaves the coordinator alone unless the caller takes
    the role. *)
Lemma elect_timed_waiter_cases (next : Timestamp) (s : coordinator) :
  elect_timed_waiter next s =
    if negb (next =? InfFuture)
       && (negb (g_has_timed_waiter s) || (next <? g_timed_waiter_deadline s))
    then
      Ret (u64_add (g_timed_waiter_generation s) 1, next)
          (set_timed_waiter_deadline next
             (set_has_timed_waiter true
                (set_timed_waiter_generation
                   (u64_add (g_timed_waiter_generation s) 1) s))) []
    else
      Ret (u64_sub (g_timed_waiter_generation s) 1,
           if next =? InfFuture then next else InfFuture) s [].
Proof.
  destruct s as [th st tc wc ct k h d g w]. run.
  destruct (next =? InfFuture); [reflexivity|].
  destruct h; [|reflexivity].
  destruct (next <? d); reflexivity.
Qed.



(** C3, as stated, fails: [stop_threads] on a coordinator that is not
    threaded still executes [g_wakeups = 0], so a non-zero count of
    wake-ups is lost and the state is not the one before the call. *)
Lemma stop_unthreaded_clears_wakeups :
  g_threaded stopped_after_seven_wakeups = false /\
  g_wakeups stopped_after_seven_wakeups = 7 /\
  exists s',
    stop_threads [] stopped_after_seven_wakeups =
      Ret tt s' [MuLock; MuUnlock] /\
    g_wakeups s' = 0 /\
    s' <> stopped_after_seven_wakeups.
Proof.
  split; [reflexivity|]. split; [reflexivity|].
  eexists. split; [reflexivity|]. split; [reflexivity|].
  intro H. discriminate H.
Qed.

(** C3, amended.  [stop_threads] on a coordinator that is not threaded
    returns at once, without a broadcast and without waiting, and leaves
    every field as it was except [g_wakeups], which it sets to zero. *)
Theorem stop_threads_unthreaded (s : coordinator) (turns : list turn)
    (Hunthreaded : g_threaded s = false) :
  exists s',
    stop_threads turns s = Ret tt s' [MuLock; MuUnlock] /\
    s' = set_wakeups 0 s /\
    g_wakeups s' = 0 /\
    g_threaded s' = false /\
    g_start_threaded s' = g_start_threaded s /\
    g_thread_count s' = g_thread_count s /\
    g_waiter_count s' = g_waiter_count s /\
    g_completed_threads s' = g_completed_threads s /\
    g_kicked s' = g_kicked s /\
    g_has_timed_waiter s' = g_has_timed_waiter s /\
    g_timed_waiter_deadline s' = g_timed_waiter_deadline s /\
    g_timed_waiter_generation s' = g_timed_waiter_generation s.
Proof.
  destruct s as [th st tc wc ct k h d g w].
  cbn [g_threaded] in Hunthreaded. subst th.
  eexists. split; [reflexivity|]. run. repeat split.
Qed.

Lemma stop_threads_unthreaded_witness :
  g_threaded stopped_after_seven_wakeups = false /\
  exists s',
    stop_threads [] stopped_after_seven_wakeups =
      Ret tt s' [MuLock; MuUnlock] /\
    s' = set_wakeups 0 stopped_after_seven_wakeups.
Proof.
  split; [reflexivity|].
  destruct (stop_threads_unthreaded stopped_after_seven_wakeups [] eq_refl)
    as (s' & Hrun & Hs' & _).
  exists s'. split; assumption.
Defined.

(** [start_threads] always returns, and what it does only depends on
    [g_threaded]. *)
Lemma start_threads_cases (s : coordinator) :
  start_threads s =
    if g_threaded s
    then Ret tt s [MuLock; MuUnlock]
    else Ret tt (spawned (set_threaded true s))
           [MuLock; MuUnlock; ThreadStart].
Proof.
  destruct s as [th st tc wc ct k h d g w]. destruct th; reflexivity.
Qed.

(** C4.  [grpc_timer_manager_set_threading(true)] on a threaded
    coordinator changes nothing and starts no thread; on one that is not
    threaded it sets [g_threaded], starts exactly one thread and adds one
    to [g_thread_count] and to [g_waiter_count].  Calling it twice in a
    row gives the state of calling it once and starts as many threads:
    one from a coordinator that is not threaded, none otherwise. *)
Theorem set_threading_true_idempotent (s : coordinator) (turns : list turn) :
  let start := grpc_timer_manager_set_threading true turns in
  exists s1 tr1 tr2,
    start s = Ret tt s1 tr1 /\
    (start ;; start) s = Ret tt s1 tr2 /\
    start s1 = Ret tt s1 [MuLock; MuUnlock] /\
    count is_thread_start tr2 = count is_thread_start tr1 /\
    count is_thread_start tr1 = (if g_threaded s then 0%nat else 1%nat) /\
    s1 = (if g_threaded s then s else spawned (set_threaded true s)) /\
    g_threaded s1 = true /\
    g_thread_count s1 =
      (if g_threaded s then g_thread_count s else g_thread_count s + 1) /\
    g_waiter_count s1 =
      (if g_threaded s then g_waiter_count s else g_waiter_count s + 1) /\
    g_start_threaded s1 = g_start_threaded s /\
    g_completed_threads s1 = g_completed_threads s /\
    g_kicked s1 = g_kicked s /\
    g_has_timed_waiter s1 = g_has_timed_waiter s /\
    g_timed_waiter_deadline s1 = g_timed_waiter_deadline s /\
    g_timed_waiter_generation s1 = g_timed_waiter_generation s /\
    g_wakeups s1 = g_wakeups s.
Proof.
  destruct s as [th st tc wc ct k h d g w].
  destruct th; cbv zeta;
    (do 3 eexists; split; [reflexivity|]; split; [reflexivity|];
     split; [reflexivity|]; run; repeat split).
Qed.

Lemma gc_completed_threads_cases (during_join : interference)
    (s : coordinator) :
  gc_completed_threads during_join s =
    match g_completed_threads s with
    | [] => Ret tt s []
    | ct :: cts =>
        Ret tt (during_join (set_completed_threads [] s))
          (MuUnlock :: map ThreadJoin (ct :: cts) ++ [MuLock])
    end.
Proof.
  destruct s as [th st tc wc ct k h d g w]. destruct ct as [|c cts]; run.
  - reflexivity.
  - reflexivity.
Qed.

(** The loop of [stop_threads] ends with no worker counted, or sleeps on
    [g_cv_shutdown] with workers still counted. *)
Lemma stop_threads_loop_result (turns : list turn) :
  forall s,
    match stop_threads_loop turns s with
    | Ret _ s' _ => g_thread_count s' <= 0
    | Halt h s' _ => h = Parked g_cv_shutdown /\ 0 < g_thread_count s'
    end.
Proof.
  induction turns as [|t turns' IH]; intros s; cbn [stop_threads_loop];
    unfold bind at 1, get; destruct (Z.ltb_spec 0 (g_thread_count s)) as [Hpos|Hle];
    try (cbn; lia).
  - cbn. split; [reflexivity | lia].
  - unfold bind at 1, gpr_cv_wait.
    unfold bind at 1. rewrite gc_completed_threads_cases.
    set (s1 := while_asleep t s).
    destruct (g_completed_threads s1) as [|c cts].
    + specialize (IH s1). destruct (stop_threads_loop turns' s1); exact IH.
    + specialize (IH (while_joining t (set_completed_threads [] s1))).
      destruct (stop_threads_loop turns' _); exact IH.
Qed.

Lemma stop_threads_result (turns : list turn) (s : coordinator) :
  match stop_threads turns s with
  | Ret _ s' _ => g_wakeups s' = 0
  | Halt h s' _ =>
      h = Parked g_cv_shutdown /\ g_threaded s = true /\ 0 < g_thread_count s'
  end.
Proof.
  unfold stop_threads, bind at 1, gpr_mu_lock, emit.
  unfold bind at 1, get. unfold bind at 1.
  destruct (g_threaded s) eqn:Hth.
  - unfold bind at 1, modify. unfold bind at 1, gpr_cv_broadcast, emit.
    pose proof (stop_threads_loop_result turns (set_threaded false s)) as Hl.
    destruct (stop_threads_loop turns (set_threaded false s)) as [[] s1 tr1|h s1 tr1].
    + reflexivity.
    + destruct Hl as [-> Hpos]. cbn. auto.
  - reflexivity.
Qed.

Lemma stop_threads_threaded (turns : list turn) (s : coordinator) :
  g_threaded s = true ->
  stop_threads turns s =
    match stop_threads_loop turns (set_threaded false s) with
    | Ret _ s1 tr1 =>
        Ret tt (set_wakeups 0 s1)
          (MuLock :: CvBroadcast g_cv_wait :: tr1 ++ [MuUnlock])
    | Halt h s1 tr1 => Halt h s1 (MuLock :: CvBroadcast g_cv_wait :: tr1)
    end.
Proof.
  intros Hth.
  unfold stop_threads, bind, gpr_mu_lock, gpr_mu_unlock, gpr_cv_broadcast,
    emit, get, modify.
  rewrite Hth.
  destruct (stop_threads_loop turns (set_threaded false s))
    as [[] s1 tr1|h s1 tr1]; reflexivity.
Qed.

Lemma stop_threads_loop_done (turns : list turn) (s : coordinator) :
  g_thread_count s <= 0 -> stop_threads_loop turns s = Ret tt s [].
Proof.
  intros Hle. destruct turns; cbn [stop_threads_loop]; unfold bind, get;
    destruct (Z.ltb_spec 0 (g_thread_count s)); try lia; reflexivity.
Qed.

Lemma stop_threads_loop_step (t : turn) (turns : list turn)
    (s : coordinator) :
  0 < g_thread_count s ->
  stop_threads_loop (t :: turns) s =
    let joins :=
      trace_of (gc_completed_threads (while_joining t) (while_asleep t s)) in
    match stop_threads_loop turns (after_turn t s) with
    | Ret a s' tr =>
        Ret a s' (CvWait g_cv_shutdown InfFuture :: joins ++ tr)
    | Halt h s' tr =>
        Halt h s' (CvWait g_cv_shutdown InfFuture :: joins ++ tr)
    end.
Proof.
  intros Hpos. apply Z.ltb_lt in Hpos.
  cbn [stop_threads_loop]. unfold after_turn.
  unfold bind at 1, get. rewrite Hpos.
  unfold bind at 1, gpr_cv_wait. unfold bind at 1.
  rewrite gc_completed_threads_cases.
  destruct (g_completed_threads (while_asleep t s)); cbn [state_of trace_of];
    cbv zeta;
    match goal with
    | |- context [stop_threads_loop turns ?x] =>
        destruct (stop_threads_loop turns x)
    end; reflexivity.
Qed.

Lemma stop_threads_loop_returned (turns : list turn) :
  forall s, returned (stop_threads_loop turns s) = drains turns s.
Proof.
  induction turns as [|t turns' IH]; intros s; cbn [drains];
    destruct (Z.ltb_spec 0 (g_thread_count s)) as [Hpos | Hle];
    try (rewrite stop_threads_loop_done by exact Hle; reflexivity).
  - cbn [stop_threads_loop]. unfold bind, get.
    apply Z.ltb_lt in Hpos. rewrite Hpos. reflexivity.
  - rewrite (stop_threads_loop_step t turns' s Hpos). cbv zeta.
    rewrite <- IH. destruct (stop_threads_loop turns' (after_turn t s));
      reflexivity.
Qed.

(** C5.  Whatever [g_wakeups] holds, a call of
    [grpc_timer_manager_set_threading(false)] that returns leaves
    [g_wakeups] at zero, and [grpc_timer_manager_set_threading(true)]
    called next returns with [g_wakeups] untouched, so the count is zero
    after the two calls.  The first call returns at once when the
    coordinator is not threaded or counts no worker; on a running pool
    it broadcasts, sleeps on [g_cv_shutdown], and returns exactly when
    one of its wake-ups finds no worker counted any more, with
    [g_wakeups] at zero; until then it sleeps on with workers still
    counted. *)
Theorem set_threading_false_resets_wakeups (s : coordinator)
    (turns turns' : list turn) :
  let stop := grpc_timer_manager_set_threading false turns in
  let start := grpc_timer_manager_set_threading true turns' in
  match stop s with
  | Ret _ s1 _ =>
      g_wakeups s1 = 0 /\
      exists s2 tr tr',
        start s1 = Ret tt s2 tr /\
        g_wakeups s2 = g_wakeups s1 /\
        (stop ;; start) s = Ret tt s2 tr' /\
        g_wakeups s2 = 0
  | Halt h s1 _ =>
      h = Parked g_cv_shutdown /\ g_threaded s = true /\ 0 < g_thread_count s1
  end /\
  (g_threaded s = false \/ g_thread_count s <= 0 -> returned (stop s) = true) /\
  returned (stop s) =
    negb (g_threaded s) || drains turns (set_threaded false s) /\
  (forall t rest,
     g_threaded s = true -> 0 < g_thread_count s ->
     g_thread_count (after_turn t (set_threaded false s)) <= 0 ->
     let s1 := set_wakeups 0 (after_turn t (set_threaded false s)) in
     grpc_timer_manager_set_threading false (t :: rest) s =
       Ret tt s1
         (MuLock :: CvBroadcast g_cv_wait ::
          CvWait g_cv_shutdown InfFuture ::
          trace_of (gc_completed_threads (while_joining t)
                      (while_asleep t (set_threaded false s))) ++
          [MuUnlock]) /\
     g_wakeups s1 = 0 /\
     exists s2 tr2,
       (grpc_timer_manager_set_threading false (t :: rest) ;; start) s =
         Ret tt s2 tr2 /\
       g_wakeups s2 = 0).
Proof.
  cbv zeta. cbn [grpc_timer_manager_set_threading].
  split; [|split; [|split]].
  - pose proof (stop_threads_result turns s) as Hstop.
    destruct (stop_threads turns s) as [[] s1 tr1|h s1 tr1] eqn:Hrun;
      [|exact Hstop].
    split; [exact Hstop|].
    pose proof (start_threads_cases s1) as Hstart.
    unfold bind. rewrite Hrun.
    destruct (g_threaded s1); rewrite Hstart; do 3 eexists;
      (split; [reflexivity|]); (split; [|split; [reflexivity|]]);
      destruct s1; cbn in *; assumption || reflexivity.
  - intros Hquick.
    destruct s as [th st tc wc ct k h d g w]. cbn [g_threaded g_thread_count] in Hquick.
    destruct th.
    + destruct Hquick as [Hf|Hle]; [discriminate|].
      destruct turns as [|t turns0]; run;
        destruct (Z.ltb_spec 0 tc) as [Hpos|_]; try lia; reflexivity.
    + reflexivity.
  - destruct (g_threaded s) eqn:Hth; cbn [negb orb].
    + rewrite (stop_threads_threaded turns s Hth).
      rewrite <- stop_threads_loop_returned.
      destruct (stop_threads_loop turns (set_threaded false s));
        reflexivity.
    + destruct s as [th st tc wc ct k h d g w].
      cbn [g_threaded] in Hth. subst th. reflexivity.
  - intros t rest Hth Hpos Hgone.
    assert (Hpos0 : 0 < g_thread_count (set_threaded false s))
      by (destruct s; exact Hpos).
    assert (Hrun : stop_threads (t :: rest) s =
              Ret tt (set_wakeups 0 (after_turn t (set_threaded false s)))
                (MuLock :: CvBroadcast g_cv_wait ::
                 CvWait g_cv_shutdown InfFuture ::
                 trace_of (gc_completed_threads (while_joining t)
                             (while_asleep t (set_threaded false s))) ++
                 [MuUnlock])).
    { rewrite (stop_threads_threaded (t :: rest) s Hth).
      rewrite (stop_threads_loop_step t rest _ Hpos0). cbv zeta.
      rewrite (stop_threads_loop_done rest _ Hgone).
      rewrite app_nil_r. reflexivity. }
    split; [exact Hrun|].
    split; [destruct (after_turn t (set_threaded false s)); reflexivity|].
    unfold bind. rewrite Hrun, start_threads_cases.
    destruct (g_threaded (set_wakeups 0 _)) eqn:Hth1;
      do 2 eexists; (split; [reflexivity|]);
      destruct (after_turn t (set_threaded false s)); reflexivity.
Qed.

Lemma set_threading_false_resets_wakeups_witness :
  (g_threaded idle_pool = true /\
   0 < g_thread_count idle_pool /\
   g_thread_count
     (after_turn (last_worker_leaves 7) (set_threaded false idle_pool)) <= 0 /\
   grpc_timer_manager_set_threading false [last_worker_leaves 7] idle_pool =
     Ret tt (mkCoordinator false true 0 0 [] false false InfFuture 0 0)
       [MuLock; CvBroadcast g_cv_wait; CvWait g_cv_shutdown InfFuture;
        MuUnlock; ThreadJoin 0%nat; MuLock; MuUnlock]) /\
  (g_threaded stopped_after_seven_wakeups = false /\
   returned
     (grpc_timer_manager_set_threading false []
        stopped_after_seven_wakeups) = true).
Proof.
  assert (Hpos : 0 < g_thread_count idle_pool) by (cbn; lia).
  assert (Hgone : g_thread_count
                    (after_turn (last_worker_leaves 7)
                       (set_threaded false idle_pool)) <= 0)
    by (vm_compute; discriminate).
  split.
  - split; [reflexivity|]. split; [exact Hpos|]. split; [exact Hgone|].
    exact (proj1 (proj2 (proj2 (proj2 (set_threading_false_resets_wakeups
                                         idle_pool [] [])))
                    (last_worker_leaves 7) [] eq_refl Hpos Hgone)).
  - split; [reflexivity|].
    apply (proj1 (proj2 (set_threading_false_resets_wakeups
                           stopped_after_seven_wakeups [] []))).
    left. reflexivity.
Defined.

(** Stopping a pool whose only worker sleeps as the timed waiter: the
    stopping thread broadcasts, sleeps on [g_cv_shutdown], finds the
    worker gone when it wakes, joins it and returns. *)
Example stop_threads_drains_pool :
  stop_threads [last_worker_leaves 1]
    (mkCoordinator true true 1 1 [] false true 50 1 0) =
  Ret tt (mkCoordinator false true 0 0 [] false false InfFuture 1 0)
    [MuLock; CvBroadcast g_cv_wait; CvWait g_cv_shutdown InfFuture;
     MuUnlock; ThreadJoin 0%nat; MuLock; MuUnlock].
Proof. reflexivity. Qed.

(** Without a wake-up the stopping thread stays asleep. *)
Example stop_threads_sleeps_on :
  stop_threads [] idle_pool =
  Halt (Parked g_cv_shutdown)
    (set_threaded false idle_pool)
    [MuLock; CvBroadcast g_cv_wait; CvWait g_cv_shutdown InfFuture].
Proof. reflexivity. Qed.

(** What the thread does once [gpr_cv_wait] has returned. *)
Lemma timed_waiter_wakeup_cases (my : Z) (s : coordinator) :
  timed_waiter_wakeup my s =
    Ret tt
      (if my =? g_timed_waiter_generation s
       then set_timed_waiter_deadline InfFuture
              (set_has_timed_waiter false
                 (set_wakeups (u64_add (g_wakeups s) 1) s))
       else s) [].
Proof.
  destruct s as [th st tc wc ct k h d g w]. run.
  destruct (my =? g); reflexivity.
Qed.

Lemma wait_until_finish_cases (s : coordinator) :
  wait_until_finish s =
    if g_kicked s
    then Ret true (set_kicked false s) [ConsumeKick; MuUnlock]
    else Ret true s [MuUnlock].
Proof.
  destruct s as [th st tc wc ct k h d g w]. destruct k; reflexivity.
Qed.

(** All the paths through [wait_until]. *)
Lemma wait_until_cases (next : Timestamp) (wake : option interference)
    (s : coordinator) :
  wait_until next wake s =
    if negb (g_threaded s) then Ret false s [MuLock; MuUnlock]
    else if g_kicked s then
      Ret true (set_kicked false s) [MuLock; ConsumeKick; MuUnlock]
    else
      match elect_timed_waiter next s with
      | Ret (my, sleep) s1 _ =>
          match wake with
          | None =>
              Halt (Parked g_cv_wait) s1 [MuLock; CvWait g_cv_wait sleep]
          | Some others =>
              let s2 := after_wakeup my (others s1) in
              if g_kicked s2
              then Ret true (set_kicked false s2)
                     [MuLock; CvWait g_cv_wait sleep; ConsumeKick; MuUnlock]
              else Ret true s2 [MuLock; CvWait g_cv_wait sleep; MuUnlock]
          end
      | Halt h s1 tr => Halt h s1 (MuLock :: tr)
      end.
Proof.
  unfold wait_until, bind, gpr_mu_lock, emit, get, ret.
  destruct (g_threaded s); cbn [negb app]; [|reflexivity].
  destruct (g_kicked s) eqn:Hk; cbn [negb app].
  - rewrite wait_until_finish_cases, Hk. reflexivity.
  - rewrite elect_timed_waiter_cases.
    destruct (negb (next =? InfFuture) &&
              (negb (g_has_timed_waiter s) ||
               (next <? g_timed_waiter_deadline s)));
      (destruct wake as [others|]; [|reflexivity]);
      cbn [gpr_cv_wait fst snd app];
      rewrite timed_waiter_wakeup_cases; cbn [app];
      rewrite wait_until_finish_cases;
      cbv zeta; unfold after_wakeup;
      match goal with
      | |- context [g_kicked ?x] => destruct (g_kicked x); reflexivity
      end.
Qed.

(** C6.  [wait_until] gives [false] exactly when [g_threaded] is clear on
    entry; it then returns at once, without sleeping and with the
    coordinator untouched.  In every other case the value it returns is
    [true]: it returns when a kick is pending or when the sleeper is
    woken, and the only way not to return is to stay asleep on
    [g_cv_wait]. *)
Theorem wait_until_false_iff_unthreaded (s : coordinator) (next : Timestamp)
    (wake : option interference) :
  (value_of (wait_until next wake s) = Some false <-> g_threaded s = false) /\
  (if g_threaded s
   then match wait_until next wake s with
        | Ret b _ _ => b = true
        | Halt h _ _ =>
            h = Parked g_cv_wait /\ wake = None /\ g_kicked s = false
        end
   else wait_until next wake s = Ret false s [MuLock; MuUnlock] /\
        count is_cv_wait (trace_of (wait_until next wake s)) = 0%nat) /\
  returned (wait_until next wake s) =
    negb (g_threaded s) || g_kicked s ||
    match wake with Some _ => true | None => false end.
Proof.
  rewrite wait_until_cases, elect_timed_waiter_cases.
  destruct (g_threaded s), (g_kicked s); cbn [negb orb];
    try (repeat split; cbn; intros; congruence).
  destruct (negb (next =? InfFuture) &&
            (negb (g_has_timed_waiter s) ||
             (next <? g_timed_waiter_deadline s)));
    destruct wake as [others|]; cbv zeta;
    try match goal with
      | |- context [if g_kicked ?x then _ else _] => destruct (g_kicked x)
      end;
    repeat split; cbn; intros; congruence.
Qed.

(** [wait_until] for a thread that goes to sleep and is woken: what it
    does about a kick is decided by what it finds on waking. *)
Lemma wait_until_woken (next : Timestamp) (others : interference)
    (s : coordinator) :
  g_threaded s = true -> g_kicked s = false ->
  exists my sleep s1,
    elect_timed_waiter next s = Ret (my, sleep) s1 [] /\
    let s2 := after_wakeup my (others s1) in
    g_kicked s2 = g_kicked (others s1) /\
    wait_until next (Some others) s =
      (if g_kicked (others s1)
       then Ret true (set_kicked false s2)
              [MuLock; CvWait g_cv_wait sleep; ConsumeKick; MuUnlock]
       else Ret true s2 [MuLock; CvWait g_cv_wait sleep; MuUnlock]) /\
    count is_consume_kick (trace_of (wait_until next (Some others) s)) =
      (if g_kicked (others s1) then 1%nat else 0%nat).
Proof.
  intros Hth Hk.
  rewrite wait_until_cases, Hth, Hk. cbn [negb].
  rewrite elect_timed_waiter_cases.
  assert (Hsame : forall my x, g_kicked (after_wakeup my x) = g_kicked x).
  { intros my x. unfold after_wakeup.
    destruct (my =? g_timed_waiter_generation x); destruct x; reflexivity. }
  destruct (negb (next =? InfFuture) &&
            (negb (g_has_timed_waiter s) ||
             (next <? g_timed_waiter_deadline s)));
    do 3 eexists; (split; [reflexivity|]); cbv zeta;
    rewrite Hsame; (split; [reflexivity|]);
    destruct (g_kicked (others _)); split; reflexivity.
Qed.

(** C7.  [wait_until] entered with [g_threaded] set and a kick pending
    neither elects nor sleeps: it acknowledges the kick to the timer
    engine, clears [g_kicked] and returns [true], with the generation,
    the timed waiter, its deadline and the count of wake-ups as they
    were.  More generally every path that returns [true] ends in the
    same block, which acknowledges and clears a kick whenever it finds
    one, so [g_kicked] is clear whenever [wait_until] has returned
    [true]; a sleeper that finds a kick when it wakes acknowledges it
    exactly once and clears it, and one that finds none acknowledges
    nothing. *)
Theorem wait_until_consumes_kick (s : coordinator) (next : Timestamp)
    (wake : option interference)
    (Hthreaded : g_threaded s = true) (Hkicked : g_kicked s = true) :
  exists s' tr,
    wait_until next wake s = Ret true s' tr /\
    tr = [MuLock; ConsumeKick; MuUnlock] /\
    count is_cv_wait tr = 0%nat /\
    count is_consume_kick tr = 1%nat /\
    s' = set_kicked false s /\
    g_kicked s' = false /\
    g_timed_waiter_generation s' = g_timed_waiter_generation s /\
    g_has_timed_waiter s' = g_has_timed_waiter s /\
    g_timed_waiter_deadline s' = g_timed_waiter_deadline s /\
    g_wakeups s' = g_wakeups s /\
    (forall s0,
       wait_until_finish s0 =
         if g_kicked s0
         then Ret true (set_kicked false s0) [ConsumeKick; MuUnlock]
         else Ret true s0 [MuUnlock]) /\
    (forall next0 wake0 s0 s1 tr0,
       wait_until next0 wake0 s0 = Ret true s1 tr0 ->
       g_kicked s1 = false /\
       (count is_consume_kick tr0 <= 1)%nat) /\
    (forall next0 others s0,
       g_threaded s0 = true -> g_kicked s0 = false ->
       exists my sleep s1,
         elect_timed_waiter next0 s0 = Ret (my, sleep) s1 [] /\
         let s2 := after_wakeup my (others s1) in
         g_kicked s2 = g_kicked (others s1) /\
         wait_until next0 (Some others) s0 =
           (if g_kicked (others s1)
            then Ret true (set_kicked false s2)
                   [MuLock; CvWait g_cv_wait sleep; ConsumeKick; MuUnlock]
            else Ret true s2 [MuLock; CvWait g_cv_wait sleep; MuUnlock]) /\
         count is_consume_kick
           (trace_of (wait_until next0 (Some others) s0)) =
           (if g_kicked (others s1) then 1%nat else 0%nat)).
Proof.
  exists (set_kicked false s), [MuLock; ConsumeKick; MuUnlock].
  split.
  { rewrite wait_until_cases, Hthreaded, Hkicked. reflexivity. }
  do 4 (split; [reflexivity|]).
  destruct s as [th st tc wc ct k h d g w].
  do 5 (split; [reflexivity|]).
  split; [exact wait_until_finish_cases|].
  clear. split; [|apply wait_until_woken].
  intros next0 wake0 s0 s1 tr0.
  rewrite !wait_until_cases, !elect_timed_waiter_cases.
  destruct s0 as [th st tc wc ct k h d g w].
  cbn [g_threaded g_kicked g_has_timed_waiter g_timed_waiter_deadline
       g_timed_waiter_generation set_kicked].
  destruct th; cbn [negb]; [|discriminate].
  destruct k.
  - intros H. injection H as <- <-. split; [reflexivity|]. cbn. lia.
  - destruct (negb (next0 =? InfFuture) && (negb h || (next0 <? d)));
      (destruct wake0 as [others|]; [|discriminate]); cbv zeta;
      match goal with
      | |- context [if g_kicked ?x then _ else _] =>
          destruct (g_kicked x) eqn:Hk
      end;
      intros H; injection H as <- <-;
      (split; [first [reflexivity | exact Hk] | cbn; lia]).
Qed.

Lemma wait_until_consumes_kick_witness :
  g_threaded kicked_pool = true /\
  g_kicked kicked_pool = true /\
  (exists s' tr,
     wait_until 10 None kicked_pool = Ret true s' tr /\
     tr = [MuLock; ConsumeKick; MuUnlock] /\
     s' = set_kicked false kicked_pool) /\
  g_threaded idle_pool = true /\
  g_kicked idle_pool = false /\
  count is_consume_kick
    (trace_of (wait_until 100 (Some (others_step OtherKick)) idle_pool))
    = 1%nat.
Proof.
  split; [reflexivity|]. split; [reflexivity|].
  destruct (wait_until_consumes_kick kicked_pool 10 None eq_refl eq_refl)
    as (s' & tr & Hrun & Htr & _ & _ & Hs' & _ & _ & _ & _ & _ & _ & _ & Hwoken).
  split; [exists s', tr; repeat split; assumption|].
  split; [reflexivity|]. split; [reflexivity|].
  destruct (Hwoken 100 (others_step OtherKick) idle_pool eq_refl eq_refl)
    as (my & sleep & s1 & Helect & _ & _ & Hcount).
  injection Helect as _ _ <-.
  exact Hcount.
Defined.

Lemma count_app (f : event -> bool) (a b : trace) :
  count f (a ++ b) = (count f a + count f b)%nat.
Proof. unfold count. now rewrite filter_app, length_app. Qed.

Lemma count_joins (f : event -> bool) (l : list handle) :
  (forall ct, f (ThreadJoin ct) = false) ->
  count f (map ThreadJoin l) = 0%nat.
Proof.
  intros Hf. unfold count.
  induction l as [|c l IH]; cbn; [reflexivity|]. now rewrite Hf.
Qed.

Lemma count_cons (f : event -> bool) (e : event) (tr : trace) :
  count f (e :: tr) = ((if f e then 1 else 0) + count f tr)%nat.
Proof. unfold count. cbn [filter]. destruct (f e); reflexivity. Qed.

(** The second critical section of [run_some_timers] takes and releases
    the mutex and joins; it does nothing else to the outside. *)
Lemma collect_trace_quiet (f : event -> bool) (l : list handle) :
  f MuLock = false -> f MuUnlock = false ->
  (forall ct, f (ThreadJoin ct) = false) ->
  count f
    (MuLock ::
     match l with
     | [] => []
     | ct :: cts => MuUnlock :: map ThreadJoin (ct :: cts) ++ [MuLock]
     end ++ [MuUnlock]) = 0%nat.
Proof.
  intros Hl Hu Hj. rewrite count_cons, Hl, count_app.
  destruct l as [|c cts].
  - rewrite !count_cons, Hu. reflexivity.
  - rewrite count_cons, Hu, count_app, (count_joins f _ Hj),
      !count_cons, Hl, Hu. reflexivity.
Qed.

Lemma run_some_timers_begin_cases (s : coordinator) :
  run_some_timers_begin s =
    let s0 := set_waiter_count (g_waiter_count s - 1) s in
    if (g_waiter_count s - 1 =? 0) && g_threaded s
    then Ret tt (spawned s0) [MuLock; MuUnlock; ThreadStart]
    else Ret tt s0
           (MuLock ::
            (if g_has_timed_waiter s then [] else [CvSignal g_cv_wait]) ++
            [MuUnlock]).
Proof.
  destruct s as [th st tc wc ct k h d g w]. run.
  destruct (wc - 1 =? 0), th, h; reflexivity.
Qed.

Lemma run_some_timers_end_cases (during_join : interference)
    (s : coordinator) :
  run_some_timers_end during_join s =
    let sg := match g_completed_threads s with
              | [] => s
              | _ :: _ => during_join (set_completed_threads [] s)
              end in
    Ret tt (set_waiter_count (g_waiter_count sg + 1) sg)
      (MuLock ::
       match g_completed_threads s with
       | [] => []
       | ct :: cts => MuUnlock :: map ThreadJoin (ct :: cts) ++ [MuLock]
       end ++ [MuUnlock]).
Proof.
  unfold run_some_timers_end, bind, gpr_mu_lock, gpr_mu_unlock, emit, modify.
  rewrite gc_completed_threads_cases.
  destruct (g_completed_threads s); reflexivity.
Qed.

(** C8.  A worker counted in [g_waiter_count] that calls
    [run_some_timers] first takes itself off that count.  It starts
    exactly one replacement thread exactly when the count has reached
    zero and [g_threaded] is set; otherwise it signals [g_cv_wait] once
    exactly when there is no timed waiter.  The execution context is
    flushed with the mutex released; afterwards, with the mutex held
    again, the completed threads are collected and the worker puts
    itself back on the count, so that the call leaves [g_waiter_count]
    as it found it when no replacement was started.  The second critical
    section signals nothing, starts nothing and writes no other field,
    so the counts of threads started and of signals hold for the whole
    call, which never broadcasts. *)
Theorem run_some_timers_protocol (s : coordinator)
    (during_flush during_join : interference)
    (Hcounted : 1 <= g_waiter_count s) :
  let replacement := (g_waiter_count s - 1 =? 0) && g_threaded s in
  exists s1 tr1 s2 tr2 s3 tr3,
    run_some_timers_begin s = Ret tt s1 tr1 /\
    run_some_timers_end during_join (during_flush s1) = Ret tt s2 tr2 /\
    run_some_timers during_flush during_join s =
      Ret tt s2 (tr1 ++ ExecCtxFlush :: tr2) /\
    0 <= g_waiter_count s - 1 /\
    (replacement = true <->
       g_waiter_count s - 1 = 0 /\ g_threaded s = true) /\
    count is_thread_start tr1 = (if replacement then 1%nat else 0%nat) /\
    count (is_signal g_cv_wait) tr1 =
      (if replacement then 0%nat
       else if g_has_timed_waiter s then 0%nat else 1%nat) /\
    g_waiter_count s1 =
      (if replacement then g_waiter_count s - 1 + 1
       else g_waiter_count s - 1) /\
    g_thread_count s1 =
      (if replacement then g_thread_count s + 1 else g_thread_count s) /\
    mutex_held false tr1 = false /\
    hd_error tr2 = Some MuLock /\
    count is_thread_start tr2 = 0%nat /\
    (let sf := during_flush s1 in
     let sg := match g_completed_threads sf with
               | [] => sf
               | _ :: _ => during_join (set_completed_threads [] sf)
               end in
     filter (fun e => match e with ThreadJoin _ => true | _ => false end) tr2
       = map ThreadJoin (g_completed_threads sf) /\
     g_waiter_count s2 = g_waiter_count sg + 1) /\
    run_some_timers no_interference no_interference s = Ret tt s3 tr3 /\
    g_completed_threads s3 = [] /\
    g_waiter_count s3 =
      (if replacement then g_waiter_count s + 1 else g_waiter_count s) /\
    s1 = (if replacement
          then spawned (set_waiter_count (g_waiter_count s - 1) s)
          else set_waiter_count (g_waiter_count s - 1) s) /\
    tr1 = (if replacement then [MuLock; MuUnlock; ThreadStart]
           else MuLock ::
                (if g_has_timed_waiter s then [] else [CvSignal g_cv_wait]) ++
                [MuUnlock]) /\
    (let sf := during_flush s1 in
     let sg := match g_completed_threads sf with
               | [] => sf
               | _ :: _ => during_join (set_completed_threads [] sf)
               end in
     s2 = set_waiter_count (g_waiter_count sg + 1) sg /\
     tr2 = MuLock ::
           match g_completed_threads sf with
           | [] => []
           | ct :: cts => MuUnlock :: map ThreadJoin (ct :: cts) ++ [MuLock]
           end ++ [MuUnlock]) /\
    count (is_signal g_cv_wait) tr2 = 0%nat /\
    count (is_broadcast g_cv_wait) (tr1 ++ ExecCtxFlush :: tr2) = 0%nat /\
    count (is_signal g_cv_wait) (tr1 ++ ExecCtxFlush :: tr2) =
      (if replacement then 0%nat
       else if g_has_timed_waiter s then 0%nat else 1%nat) /\
    count is_thread_start (tr1 ++ ExecCtxFlush :: tr2) =
      (if replacement then 1%nat else 0%nat).
Proof.
  cbv zeta.
  pose proof (run_some_timers_begin_cases s) as Hb. cbv zeta in Hb.
  assert (Hwhole : forall df dj s1 tr1 s2 tr2,
             run_some_timers_begin s = Ret tt s1 tr1 ->
             run_some_timers_end dj (df s1) = Ret tt s2 tr2 ->
             run_some_timers df dj s = Ret tt s2 (tr1 ++ ExecCtxFlush :: tr2)).
  { intros df dj s1 tr1 s2 tr2 H1 H2.
    unfold run_some_timers, bind, emit, unlocked, modify.
    rewrite H1, H2. reflexivity. }
  assert (Hjoins : forall l : list handle,
             filter (fun e => match e with ThreadJoin _ => true | _ => false end)
               (map ThreadJoin l ++ [MuLock; MuUnlock]) = map ThreadJoin l).
  { induction l as [|c l IH]; cbn; [reflexivity | now rewrite IH]. }
  destruct ((g_waiter_count s - 1 =? 0) && g_threaded s) eqn:Hrep.
  - (* a replacement is started *)
    apply andb_prop in Hrep. destruct Hrep as [Hz Hth].
    apply Z.eqb_eq in Hz.
    do 6 eexists.
    split; [exact Hb|].
    split; [apply run_some_timers_end_cases|].
    split; [eapply Hwhole; [exact Hb | apply run_some_timers_end_cases]|].
    split; [lia|]. split; [tauto|].
    do 2 (split; [reflexivity|]).
    split; [destruct s; reflexivity|]. split; [destruct s; reflexivity|].
    split; [reflexivity|]. split; [reflexivity|].
    split.
    { destruct (g_completed_threads (during_flush _)); cbn; [reflexivity|].
      rewrite filter_app. cbn. rewrite app_nil_r.
      clear. induction l as [|c l IH]; cbn; [reflexivity|].
      unfold count in *. cbn. rewrite filter_app in *.
      rewrite length_app in *. cbn in *. exact IH. }
    split.
    { cbv zeta. split; [|reflexivity].
      destruct (g_completed_threads (during_flush _)) as [|c cts]; cbn;
        [reflexivity|].
      f_equal. rewrite <- app_assoc. apply Hjoins. }
    split; [eapply Hwhole; [exact Hb | apply run_some_timers_end_cases]|].
    split; [destruct s as [th st tc wc ct k h d g w];
            unfold no_interference, spawned; cbn; destruct ct; reflexivity|].
    split; [destruct s as [th st tc wc ct k h d g w];
            unfold no_interference, spawned; cbn; destruct ct; cbn; lia|].
    split; [reflexivity|]. split; [reflexivity|].
    split; [split; reflexivity|].
    split; [apply collect_trace_quiet; reflexivity|].
    repeat split;
      rewrite (count_app _ _ (ExecCtxFlush :: _)),
        (count_cons _ ExecCtxFlush),
        collect_trace_quiet by reflexivity;
      reflexivity.
  - (* no replacement *)
    do 6 eexists.
    split; [exact Hb|].
    split; [apply run_some_timers_end_cases|].
    split; [eapply Hwhole; [exact Hb | apply run_some_timers_end_cases]|].
    split; [lia|].
    split.
    { split; [discriminate|]. intros [Hz Hth].
      apply Z.eqb_eq in Hz. rewrite Hz, Hth in Hrep. discriminate. }
    split; [destruct (g_has_timed_waiter s); reflexivity|].
    split; [destruct (g_has_timed_waiter s); reflexivity|].
    split; [destruct s; reflexivity|]. split; [destruct s; reflexivity|].
    split; [destruct (g_has_timed_waiter s); reflexivity|].
    split; [reflexivity|].
    split.
    { destruct (g_completed_threads (during_flush _)); cbn; [reflexivity|].
      rewrite filter_app. cbn. rewrite app_nil_r.
      clear. induction l as [|c l IH]; cbn; [reflexivity|].
      unfold count in *. cbn. rewrite filter_app in *.
      rewrite length_app in *. cbn in *. exact IH. }
    split.
    { cbv zeta. split; [|reflexivity].
      destruct (g_completed_threads (during_flush _)) as [|c cts]; cbn;
        [reflexivity|].
      f_equal. rewrite <- app_assoc. apply Hjoins. }
    split; [eapply Hwhole; [exact Hb | apply run_some_timers_end_cases]|].
    split; [destruct s as [th st tc wc ct k h d g w];
            unfold no_interference; cbn; destruct ct; reflexivity|].
    split; [destruct s as [th st tc wc ct k h d g w];
            unfold no_interference; cbn; destruct ct; cbn; lia|].
    split; [reflexivity|]. split; [reflexivity|].
    split; [split; reflexivity|].
    split; [apply collect_trace_quiet; reflexivity|].
    repeat split;
      rewrite (count_app _ _ (ExecCtxFlush :: _)),
        (count_cons _ ExecCtxFlush),
        collect_trace_quiet by reflexivity;
      destruct (g_has_timed_waiter s); reflexivity.
Qed.

Lemma run_some_timers_protocol_witness :
  1 <= g_waiter_count idle_pool /\
  exists s3 tr3,
    run_some_timers no_interference no_interference idle_pool =
      Ret tt s3 tr3 /\
    g_waiter_count s3 = 2.
Proof.
  assert (Hcounted : 1 <= g_waiter_count idle_pool) by (cbn; lia).
  split; [exact Hcounted|].
  destruct (run_some_timers_protocol idle_pool no_interference
              no_interference Hcounted)
    as (s1 & tr1 & s2 & tr2 & s3 & tr3 & H).
  exists s3, tr3.
  split; [apply H | apply H].
Defined.

(** A worker that is alone on the count and finds the pool threaded
    starts its replacement before it flushes. *)
Example run_some_timers_spawns :
  run_some_timers no_interference no_interference idle_pool =
  Ret tt (mkCoordinator true true 2 2 [] false false InfFuture 0 0)
    [MuLock; MuUnlock; ThreadStart; ExecCtxFlush; MuLock; MuUnlock].
Proof. reflexivity. Qed.

(** With a second waiter around and no timed waiter, it signals instead,
    and joins the threads that have completed. *)
Example run_some_timers_signals :
  run_some_timers no_interference no_interference
    (mkCoordinator true true 3 2 [7%nat; 5%nat] false false InfFuture 0 0) =
  Ret tt (mkCoordinator true true 3 2 [] false false InfFuture 0 0)
    [MuLock; CvSignal g_cv_wait; MuUnlock; ExecCtxFlush; MuLock;
     MuUnlock; ThreadJoin 7%nat; ThreadJoin 5%nat; MuLock; MuUnlock].
Proof. reflexivity. Qed.

(** C10.  [grpc_timer_manager_init] sets [g_threaded], [g_thread_count],
    [g_waiter_count], [g_completed_threads], [g_has_timed_waiter] and
    [g_timed_waiter_deadline] afresh (the first three then reflect the
    worker started when [g_start_threaded] is set), and leaves
    [g_kicked], [g_wakeups], [g_timed_waiter_generation] and
    [g_start_threaded] as they were: a pending kick and a count of
    wake-ups from before the call are still there after it. *)
Theorem init_keeps_kick_and_wakeups (s : coordinator) :
  exists s' tr,
    grpc_timer_manager_init s = Ret tt s' tr /\
    g_kicked s' = g_kicked s /\
    g_wakeups s' = g_wakeups s /\
    g_timed_waiter_generation s' = g_timed_waiter_generation s /\
    g_start_threaded s' = g_start_threaded s /\
    g_completed_threads s' = [] /\
    g_has_timed_waiter s' = false /\
    g_timed_waiter_deadline s' = InfFuture /\
    g_threaded s' = g_start_threaded s /\
    g_thread_count s' = (if g_start_threaded s then 1 else 0) /\
    g_waiter_count s' = (if g_start_threaded s then 1 else 0) /\
    tr = [MuInit; CvInit g_cv_wait; CvInit g_cv_shutdown] ++
         (if g_start_threaded s then [MuLock; MuUnlock; ThreadStart] else []).
Proof.
  destruct s as [th st tc wc ct k h d g w].
  destruct st; (do 2 eexists; split; [reflexivity|]); run; repeat split.
Qed.

(** The first [grpc_timer_manager_init] of a process starts one worker. *)
Example init_from_static_init :
  grpc_timer_manager_init static_init =
  Ret tt idle_pool
    [MuInit; CvInit g_cv_wait; CvInit g_cv_shutdown;
     MuLock; MuUnlock; ThreadStart].
Proof. reflexivity. Qed.

(** A kick and three wake-ups outlive a new [grpc_timer_manager_init]. *)
Example init_after_kick :
  grpc_timer_manager_init
    (mkCoordinator false false 0 0 [4%nat] true true 50 8 3) =
  Ret tt (mkCoordinator false false 0 0 [] true false InfFuture 8 3)
    [MuInit; CvInit g_cv_wait; CvInit g_cv_shutdown].
Proof. reflexivity. Qed.

(** No critical section does anything to the generation but add one to
    it, and only the election and the kick do that. *)
Lemma others_step_generation (a : action) (s : coordinator) :
  g_timed_waiter_generation (others_step a s) = g_timed_waiter_generation s \/
  g_timed_waiter_generation (others_step a s) =
    u64_add (g_timed_waiter_generation s) 1.
Proof.
  destruct a; unfold others_step.
  - right. destruct s. reflexivity.
  - rewrite wait_until_cases, elect_timed_waiter_cases.
    destruct s as [th st tc wc ct k h d g w]. cbn.
    destruct th, k; cbn; auto.
    destruct (negb (next =? InfFuture) && (negb h || (next <? d))); cbn; auto.
  - unfold bind. rewrite timed_waiter_wakeup_cases, wait_until_finish_cases.
    destruct s as [th st tc wc ct k h d g w]. cbn.
    destruct (my_timed_waiter_generation =? g), k; cbn; auto.
  - rewrite run_some_timers_begin_cases.
    destruct s as [th st tc wc ct k h d g w]. cbn.
    destruct ((wc - 1 =? 0) && th); cbn; auto.
  - rewrite run_some_timers_end_cases.
    destruct s as [th st tc wc ct k h d g w]. cbn.
    destruct ct; cbn; auto.
  - destruct s as [th st tc wc cts k h d g w]. run.
    destruct (0 =? tc - 1); cbn; auto.
  - rewrite start_threads_cases. destruct s as [th st tc wc ct k h d g w].
    destruct th; cbn; auto.
  - destruct s as [th st tc wc ct k h d g w]. run.
    destruct th; [destruct (0 <? tc)|]; cbn; auto.
  - unfold bind. rewrite gc_completed_threads_cases.
    destruct s as [th st tc wc ct k h d g w]. cbn.
    destruct ct; cbn; auto.
  - destruct s. cbn. auto.
Qed.

Lemma others_run_generation (l : list action) :
  forall s,
    g_timed_waiter_generation (others_run l s) = g_timed_waiter_generation s \/
    exists n,
      1 <= n <= Z.of_nat (length l) /\
      g_timed_waiter_generation (others_run l s) =
        (g_timed_waiter_generation s + n) mod u64_modulus.
Proof.
  induction l as [|a l IH]; intros s; cbn [others_run length].
  - left. reflexivity.
  - rewrite Nat2Z.inj_succ.
    destruct (others_step_generation a s) as [Hsame | Hinc];
      destruct (IH (others_step a s)) as [Hrest | (n & Hn & Hrest)].
    + left. congruence.
    + right. exists n. split; [lia|]. congruence.
    + right. exists 1. split; [lia|]. rewrite Hrest, Hinc. reflexivity.
    + right. exists (1 + n). split; [lia|].
      rewrite Hrest, Hinc. unfold u64_add.
      rewrite Zplus_mod_idemp_l. f_equal. lia.
Qed.

(** The value a worker keeps when it does not take the role meets the
    generation again only after [2^64 - 1] increments. *)
Lemma sentinel_apart (g n : Z) :
  1 <= n < u64_max -> u64_sub g 1 <> (g + n) mod u64_modulus.
Proof.
  unfold u64_sub, u64_max, u64_modulus. intros Hn Heq.
  assert (Hmod : ((g + n) - (g - 1)) mod 2 ^ 64 = 0).
  { rewrite Zminus_mod, <- Heq, Z.sub_diag. reflexivity. }
  replace (g + n - (g - 1)) with (n + 1) in Hmod by lia.
  rewrite Z.mod_small in Hmod by lia. lia.
Qed.

Lemma kicks_succ_state (n : N) (s : coordinator) :
  kicks (N.succ n) s =
    set_timed_waiter_generation
      ((g_timed_waiter_generation s + Z.of_N (N.succ n)) mod u64_modulus)
      (set_timed_waiter_deadline InfFuture
         (set_has_timed_waiter false (set_kicked true s))).
Proof.
  induction n as [|n IH] using N.peano_ind.
  - destruct s. reflexivity.
  - unfold kicks in *. rewrite N.iter_succ, IH.
    destruct s as [th st tc wc ct k h d g w].
    unfold others_step, grpc_kick_poller. run. f_equal.
    unfold u64_add. rewrite Zplus_mod_idemp_l. f_equal.
    rewrite (N2Z.inj_succ (N.succ n)). lia.
Qed.

(** C9, as stated, fails: the generation is a [uint64_t], which goes
    from [2^64 - 1] back to zero, and the value [g - 1] kept by a worker
    that did not take the role is met again after [2^64 - 1] increments.
    Here a worker goes to sleep without a deadline at generation 0,
    [2^64 - 1] kicks follow, and on waking it finds its own value equal
    to the generation and counts a wake-up. *)
Lemma sentinel_matches_after_wrap :
  g_threaded idle_pool = true /\
  g_kicked idle_pool = false /\
  g_timed_waiter_generation
    (others_step OtherKick (set_timed_waiter_generation u64_max idle_pool))
    < u64_max /\
  exists my s' tr,
    elect_timed_waiter InfFuture idle_pool =
      Ret (my, InfFuture) idle_pool [] /\
    my <> g_timed_waiter_generation idle_pool /\
    my = g_timed_waiter_generation
           (kicks 18446744073709551615%N idle_pool) /\
    wait_until InfFuture (Some (kicks 18446744073709551615%N)) idle_pool =
      Ret true s' tr /\
    g_wakeups idle_pool = 0 /\
    g_wakeups s' = 1.
Proof.
  split; [reflexivity|]. split; [reflexivity|]. split; [reflexivity|].
  assert (Hsw : kicks 18446744073709551615%N idle_pool =
                mkCoordinator true true 1 1 [] true false InfFuture
                  18446744073709551615 0).
  { change 18446744073709551615%N with (N.succ 18446744073709551614%N).
    rewrite kicks_succ_state. reflexivity. }
  exists 18446744073709551615.
  exists (mkCoordinator true true 1 1 [] false false InfFuture
            18446744073709551615 1).
  exists [MuLock; CvWait g_cv_wait InfFuture; ConsumeKick; MuUnlock].
  split; [reflexivity|].
  split; [discriminate|].
  split; [rewrite Hsw; reflexivity|].
  split; [|split; reflexivity].
  rewrite wait_until_cases, elect_timed_waiter_cases.
  change (g_threaded idle_pool) with true.
  change (g_kicked idle_pool) with false.
  change (InfFuture =? InfFuture) with true.
  cbv beta iota zeta delta [negb andb]. rewrite Hsw. reflexivity.
Qed.

(** C9, amended.  A worker that goes to sleep in [wait_until] without
    taking the role keeps the generation minus one (modulo [2^64]).
    Every critical section of another thread leaves the generation alone
    or adds one to it, so as long as fewer than [2^64 - 1] of them run
    while the worker sleeps, the value it kept differs from the
    generation it wakes up to; such a worker does not count a wake-up and
    does not touch [g_has_timed_waiter] or the deadline.  The block run
    on waking changes the coordinator only for a worker whose value is
    the current generation, and then it counts one wake-up, clears
    [g_has_timed_waiter] and puts the deadline at the infinite future. *)
Theorem sentinel_apart_before_wrap (s : coordinator) (next : Timestamp)
    (l : list action)
    (Hthreaded : g_threaded s = true) (Hkicked : g_kicked s = false)
    (Hloses : next = InfFuture \/
              g_has_timed_waiter s = true /\ g_timed_waiter_deadline s <= next)
    (Hfew : Z.of_nat (length l) < u64_max) :
  let my := u64_sub (g_timed_waiter_generation s) 1 in
  let sw := others_run l s in
  elect_timed_waiter next s = Ret (my, InfFuture) s [] /\
  my <> g_timed_waiter_generation sw /\
  (exists s' tr,
     wait_until next (Some (others_run l)) s = Ret true s' tr /\
     g_wakeups s' = g_wakeups sw /\
     g_has_timed_waiter s' = g_has_timed_waiter sw /\
     g_timed_waiter_deadline s' = g_timed_waiter_deadline sw /\
     g_timed_waiter_generation s' = g_timed_waiter_generation sw) /\
  (forall a s0,
     g_timed_waiter_generation (others_step a s0) =
       g_timed_waiter_generation s0 \/
     g_timed_waiter_generation (others_step a s0) =
       u64_add (g_timed_waiter_generation s0) 1) /\
  (forall my0 s0,
     timed_waiter_wakeup my0 s0 = Ret tt (after_wakeup my0 s0) [] /\
     (my0 <> g_timed_waiter_generation s0 -> after_wakeup my0 s0 = s0) /\
     (my0 = g_timed_waiter_generation s0 ->
        g_wakeups (after_wakeup my0 s0) = u64_add (g_wakeups s0) 1 /\
        g_has_timed_waiter (after_wakeup my0 s0) = false /\
        g_timed_waiter_deadline (after_wakeup my0 s0) = InfFuture)).
Proof.
  cbv zeta.
  assert (Hcond : negb (next =? InfFuture) &&
                  (negb (g_has_timed_waiter s) ||
                   (next <? g_timed_waiter_deadline s)) = false).
  { destruct Hloses as [-> | [Hhas Hle]].
    - reflexivity.
    - rewrite Hhas. cbn [negb orb].
      destruct (Z.ltb_spec next (g_timed_waiter_deadline s)); [lia|].
      apply andb_false_r. }
  assert (Hsleep : (if next =? InfFuture then next else InfFuture) = InfFuture).
  { destruct (Z.eqb_spec next InfFuture); congruence. }
  assert (Helect : elect_timed_waiter next s =
                   Ret (u64_sub (g_timed_waiter_generation s) 1, InfFuture)
                     s []).
  { rewrite elect_timed_waiter_cases, Hcond, Hsleep. reflexivity. }
  assert (Hapart : u64_sub (g_timed_waiter_generation s) 1 <>
                   g_timed_waiter_generation (others_run l s)).
  { destruct (others_run_generation l s) as [-> | (n & Hn & ->)].
    - apply u64_sub_1_neq.
    - apply sentinel_apart. lia. }
  split; [exact Helect|]. split; [exact Hapart|]. split; [|split].
  - rewrite wait_until_cases, Hthreaded, Hkicked, Helect. cbv zeta.
    cbn [negb]. unfold after_wakeup.
    apply Z.eqb_neq in Hapart. rewrite Hapart.
    destruct (g_kicked (others_run l s)); do 2 eexists;
      (split; [reflexivity|]); destruct (others_run l s); repeat split.
  - exact others_step_generation.
  - intros my0 s0. split; [apply timed_waiter_wakeup_cases|].
    unfold after_wakeup.
    destruct (Z.eqb_spec my0 (g_timed_waiter_generation s0)); split;
      try congruence; intros _; destruct s0; repeat split.
Qed.

Lemma sentinel_apart_before_wrap_witness :
  g_threaded pool_with_timed_waiter = true /\
  g_kicked pool_with_timed_waiter = false /\
  g_timed_waiter_deadline pool_with_timed_waiter <= 60 /\
  Z.of_nat (length [OtherKick; OtherWaitEnter 20; OtherKick]) < u64_max /\
  u64_sub (g_timed_waiter_generation pool_with_timed_waiter) 1 <>
    g_timed_waiter_generation
      (others_run [OtherKick; OtherWaitEnter 20; OtherKick]
         pool_with_timed_waiter).
Proof.
  assert (Hle : g_timed_waiter_deadline pool_with_timed_waiter <= 60)
    by (cbn; lia).
  assert (Hfew : Z.of_nat (length [OtherKick; OtherWaitEnter 20; OtherKick])
                 < u64_max) by (vm_compute; reflexivity).
  repeat (split; [first [reflexivity | assumption]|]).
  apply (sentinel_apart_before_wrap pool_with_timed_waiter 60
           [OtherKick; OtherWaitEnter 20; OtherKick]
           eq_refl eq_refl (or_intror (conj eq_refl Hle)) Hfew).
Defined.

(** ** Further properties of the code *)

Lemma run_some_timers_returns (during_flush during_join : interference)
    (s : coordinator) :
  exists s' tr, run_some_timers during_flush during_join s = Ret tt s' tr.
Proof.
  unfold run_some_timers, bind, emit, unlocked, modify.
  rewrite run_some_timers_begin_cases. cbv zeta.
  destruct ((g_waiter_count s - 1 =? 0) && g_threaded s);
    rewrite run_some_timers_end_cases; cbv zeta; eauto.
Qed.

(** What [wait_until] can come to, path by path. *)
Lemma wait_until_outcome (next : Timestamp) (wake : option interference)
    (s : coordinator) :
  match wait_until next wake s with
  | Ret false s' tr => g_threaded s' = false /\ s' = s /\ tr = [MuLock; MuUnlock]
  | Ret true _ _ => g_threaded s = true
  | Halt h _ _ => h = Parked g_cv_wait
  end.
Proof.
  rewrite wait_until_cases, elect_timed_waiter_cases.
  destruct (g_threaded s) eqn:Hth; cbn [negb]; [|auto].
  destruct (g_kicked s); [reflexivity|].
  destruct (negb (next =? InfFuture) &&
            (negb (g_has_timed_waiter s) ||
             (next <? g_timed_waiter_deadline s)));
    destruct wake as [others|]; cbv zeta;
    try match goal with
      | |- context [if g_kicked ?x then _ else _] => destruct (g_kicked x)
      end; reflexivity.
Qed.

(** The worker's loop comes to its [return] only through a [wait_until]
    that found the pool not threaded, and the only way for it to stop
    short of that is to stay asleep. *)
Lemma timer_main_loop_outcome (passes : list pass) :
  forall s,
    match timer_main_loop passes s with
    | Ret LoopReturned s' tr =>
        g_threaded s' = false /\ exists tr0, tr = tr0 ++ [MuLock; MuUnlock]
    | Ret LoopRunning _ _ => True
    | Halt h _ _ => h = Parked g_cv_wait
    end.
Proof.
  induction passes as [|p passes' IH]; intros s; cbn [timer_main_loop].
  - exact I.
  - unfold bind at 1, unlocked, modify.
    set (s0 := while_checking p s).
    assert (Hwait : forall next,
      match
        (continue <- wait_until next (wake_up p) ;;
         if negb continue then ret LoopReturned
         else timer_main_loop passes') s0
      with
      | Ret LoopReturned s' tr =>
          g_threaded s' = false /\ exists tr0, tr = tr0 ++ [MuLock; MuUnlock]
      | Ret LoopRunning _ _ => True
      | Halt h _ _ => h = Parked g_cv_wait
      end).
    { intros next. unfold bind.
      pose proof (wait_until_outcome next (wake_up p) s0) as Hw.
      destruct (wait_until next (wake_up p) s0) as [[|] s1 tr1|h s1 tr1].
      - cbn [negb]. specialize (IH s1).
        destruct (timer_main_loop passes' s1) as [[|] s2 tr2|h s2 tr2];
          auto.
        destruct IH as [Hth (tr0 & ->)]. split; [exact Hth|].
        exists (tr1 ++ tr0). now rewrite app_assoc.
      - cbn [negb ret]. destruct Hw as (Hth & _ & ->).
        split; [exact Hth|]. exists []. reflexivity.
      - exact Hw. }
    destruct (check_result p).
    + specialize (Hwait InfFuture).
      match type of Hwait with
      | match ?r with _ => _ end => destruct r as [[|] s2 tr2|h s2 tr2]
      end; auto.
    + specialize (Hwait (check_next p)).
      match type of Hwait with
      | match ?r with _ => _ end => destruct r as [[|] s2 tr2|h s2 tr2]
      end; auto.
    + unfold bind.
      destruct (run_some_timers_returns (while_flushing p)
                  (while_collecting p) s0) as (s1 & tr1 & ->).
      specialize (IH s1).
      destruct (timer_main_loop passes' s1) as [[|] s2 tr2|h s2 tr2]; auto.
      destruct IH as [Hth (tr0 & ->)]. split; [exact Hth|].
      exists (tr1 ++ tr0). cbn. now rewrite app_assoc.
Qed.

Lemma timer_thread_cleanup_cases (ct : handle) (s : coordinator) :
  timer_thread_cleanup ct s =
    Ret tt
      (set_completed_threads (ct :: g_completed_threads s)
         (set_thread_count (g_thread_count s - 1)
            (set_waiter_count (g_waiter_count s - 1) s)))
      (MuLock ::
       (if 0 =? g_thread_count s - 1 then [CvSignal g_cv_shutdown] else []) ++
       [MuUnlock]).
Proof.
  destruct s as [th st tc wc cts k h d g w]. run.
  destruct (0 =? tc - 1); reflexivity.
Qed.

(** X1.  The [CHECK(g_threaded)] of [start_timer_thread_and_unlock]
    fails exactly on a coordinator that is not threaded, and no caller
    can make it fail: [start_threads], [run_some_timers] and
    [grpc_timer_manager_init] always return, a worker thread can only
    stop short of returning by staying asleep on [g_cv_wait], and a
    shutdown only by staying asleep on [g_cv_shutdown]. *)
Theorem check_threaded_never_fails (s : coordinator) (ct : handle)
    (passes : list pass) (turns : list turn)
    (during_flush during_join : interference) :
  start_timer_thread_and_unlock s =
    (if g_threaded s then Ret tt (spawned s) [MuUnlock; ThreadStart]
     else Halt Crashed s []) /\
  returned (start_threads s) = true /\
  returned (run_some_timers during_flush during_join s) = true /\
  returned (grpc_timer_manager_init s) = true /\
  match timer_thread ct passes s with
  | Ret _ _ _ => True
  | Halt h _ _ => h = Parked g_cv_wait
  end /\
  match grpc_timer_manager_shutdown turns s with
  | Ret _ _ _ => True
  | Halt h _ _ => h = Parked g_cv_shutdown
  end.
Proof.
  split; [destruct s as [[] st tc wc cts k h d g w]; reflexivity|].
  split; [rewrite start_threads_cases; destruct (g_threaded s); reflexivity|].
  split.
  { destruct (run_some_timers_returns during_flush during_join s)
      as (s' & tr & ->). reflexivity. }
  split; [destruct s as [th [] tc wc cts k h d g w]; reflexivity|].
  split.
  - unfold timer_thread, bind.
    pose proof (timer_main_loop_outcome passes s) as Hl.
    destruct (timer_main_loop passes s) as [[|] s1 tr1|h s1 tr1];
      [rewrite timer_thread_cleanup_cases; exact I | exact I | exact Hl].
  - unfold grpc_timer_manager_shutdown, bind.
    pose proof (stop_threads_result turns s) as Hs.
    destruct (stop_threads turns s) as [[] s1 tr1|h s1 tr1];
      [exact I | apply Hs].
Qed.

(** One pass of the loop. *)
Lemma timer_main_loop_cons (p : pass) (passes : list pass)
    (s : coordinator) :
  timer_main_loop (p :: passes) s =
    match check_result p with
    | GRPC_TIMERS_FIRED =>
        (run_some_timers (while_flushing p) (while_collecting p) ;;
         timer_main_loop passes) (while_checking p s)
    | GRPC_TIMERS_NOT_CHECKED =>
        (continue <- wait_until InfFuture (wake_up p) ;;
         if negb continue then ret LoopReturned
         else timer_main_loop passes) (while_checking p s)
    | GRPC_TIMERS_CHECKED_AND_EMPTY =>
        (continue <- wait_until (check_next p) (wake_up p) ;;
         if negb continue then ret LoopReturned
         else timer_main_loop passes) (while_checking p s)
    end.
Proof.
  cbn [timer_main_loop]. unfold bind at 1, unlocked, modify.
  destruct (check_result p);
    match goal with
    | |- match ?r with _ => _ end = _ => destruct r
    end; reflexivity.
Qed.

(** The loop followed through two lists of passes in a row. *)
Lemma timer_main_loop_app (pre post : list pass) :
  forall s,
    timer_main_loop (pre ++ post) s =
      match timer_main_loop pre s with
      | Ret LoopRunning s1 tr1 =>
          match timer_main_loop post s1 with
          | Ret a s2 tr2 => Ret a s2 (tr1 ++ tr2)
          | Halt h s2 tr2 => Halt h s2 (tr1 ++ tr2)
          end
      | Ret LoopReturned s1 tr1 => Ret LoopReturned s1 tr1
      | Halt h s1 tr1 => Halt h s1 tr1
      end.
Proof.
  induction pre as [|p pre' IH]; intros s.
  - cbn [app timer_main_loop ret].
    destruct (timer_main_loop post s); reflexivity.
  - cbn [app]. rewrite !timer_main_loop_cons.
    set (s0 := while_checking p s).
    assert (Hwait : forall next,
      (continue <- wait_until next (wake_up p) ;;
       if negb continue then ret LoopReturned
       else timer_main_loop (pre' ++ post)) s0 =
      match
        (continue <- wait_until next (wake_up p) ;;
         if negb continue then ret LoopReturned
         else timer_main_loop pre') s0
      with
      | Ret LoopRunning s1 tr1 =>
          match timer_main_loop post s1 with
          | Ret a s2 tr2 => Ret a s2 (tr1 ++ tr2)
          | Halt h s2 tr2 => Halt h s2 (tr1 ++ tr2)
          end
      | Ret LoopReturned s1 tr1 => Ret LoopReturned s1 tr1
      | Halt h s1 tr1 => Halt h s1 tr1
      end).
    { intros next. unfold bind.
      destruct (wait_until next (wake_up p) s0) as [[|] s1 tr1|h s1 tr1];
        cbn [negb ret]; [|reflexivity|reflexivity].
      rewrite IH.
      destruct (timer_main_loop pre' s1) as [[|] s2 tr2|h s2 tr2];
        [reflexivity| |reflexivity].
      destruct (timer_main_loop post s2); rewrite app_assoc; reflexivity. }
    destruct (check_result p); [apply Hwait | apply Hwait |].
    unfold bind.
    destruct (run_some_timers (while_flushing p) (while_collecting p) s0)
      as [[] s1 tr1|h s1 tr1]; [|reflexivity].
    rewrite IH.
    destruct (timer_main_loop pre' s1) as [[|] s2 tr2|h s2 tr2];
      [reflexivity| |reflexivity].
    destruct (timer_main_loop post s2); rewrite app_assoc; reflexivity.
Qed.

(** X2.  [timer_main_loop] returns only from a [wait_until] that found
    [g_threaded] clear: the coordinator is then not threaded and the
    last thing the thread did was to take and release the mutex.  And it
    does return, without sleeping, on the first answer of the timer
    engine other than [GRPC_TIMERS_FIRED] that finds the coordinator not
    threaded: at the first pass, and just as well after any passes that
    the loop has run through, whatever is listed after. *)
Theorem timer_main_loop_returns_iff_unthreaded (passes : list pass)
    (s : coordinator) :
  (forall s' tr,
     timer_main_loop passes s = Ret LoopReturned s' tr ->
     g_threaded s' = false /\ exists tr0, tr = tr0 ++ [MuLock; MuUnlock]) /\
  (forall p,
     check_result p <> GRPC_TIMERS_FIRED ->
     g_threaded (while_checking p s) = false ->
     timer_main_loop (p :: passes) s =
       Ret LoopReturned (while_checking p s) [MuLock; MuUnlock]) /\
  (forall pre p s1 tr1,
     timer_main_loop pre s = Ret LoopRunning s1 tr1 ->
     check_result p <> GRPC_TIMERS_FIRED ->
     g_threaded (while_checking p s1) = false ->
     timer_main_loop (pre ++ p :: passes) s =
       Ret LoopReturned (while_checking p s1) (tr1 ++ [MuLock; MuUnlock])).
Proof.
  assert (Hhead : forall s0 p,
            check_result p <> GRPC_TIMERS_FIRED ->
            g_threaded (while_checking p s0) = false ->
            timer_main_loop (p :: passes) s0 =
              Ret LoopReturned (while_checking p s0) [MuLock; MuUnlock]);
    [|split; [|split; [apply Hhead|]]].
  - intros s0 p Hnf Hth. cbn [timer_main_loop].
    unfold bind at 1, unlocked, modify.
    assert (Hw : forall next,
               wait_until next (wake_up p) (while_checking p s0) =
               Ret false (while_checking p s0) [MuLock; MuUnlock]).
    { intros next. rewrite wait_until_cases, Hth. reflexivity. }
    destruct (check_result p); [| |congruence];
      unfold bind; rewrite Hw; reflexivity.
  - intros s' tr Hrun.
    pose proof (timer_main_loop_outcome passes s) as Hl.
    rewrite Hrun in Hl. exact Hl.
  - intros pre p s1 tr1 Hpre Hnf Hth.
    rewrite timer_main_loop_app, Hpre, (Hhead s1 p Hnf Hth). reflexivity.
Qed.

Lemma timer_main_loop_returns_iff_unthreaded_witness :
  timer_main_loop [fired_pass] stopping_pool =
    Ret LoopRunning stopping_pool
      [MuLock; CvSignal g_cv_wait; MuUnlock; ExecCtxFlush;
       MuLock; MuUnlock] /\
  check_result quiet_pass <> GRPC_TIMERS_FIRED /\
  g_threaded (while_checking quiet_pass stopping_pool) = false /\
  timer_main_loop [fired_pass; quiet_pass; contended_pass] stopping_pool =
    Ret LoopReturned stopping_pool
      [MuLock; CvSignal g_cv_wait; MuUnlock; ExecCtxFlush;
       MuLock; MuUnlock; MuLock; MuUnlock] /\
  g_threaded
    (state_of
       (timer_main_loop [fired_pass; quiet_pass; contended_pass]
          stopping_pool)) = false.
Proof.
  assert (Hpre : timer_main_loop [fired_pass] stopping_pool =
                 Ret LoopRunning stopping_pool
                   [MuLock; CvSignal g_cv_wait; MuUnlock; ExecCtxFlush;
                    MuLock; MuUnlock]) by reflexivity.
  assert (Hnf : check_result quiet_pass <> GRPC_TIMERS_FIRED)
    by discriminate.
  pose proof (proj2 (proj2 (timer_main_loop_returns_iff_unthreaded
                              [contended_pass] stopping_pool))
                [fired_pass] quiet_pass _ _ Hpre Hnf eq_refl) as Hrun.
  split; [exact Hpre|]. split; [exact Hnf|]. split; [reflexivity|].
  split; [exact Hrun|].
  destruct (proj1 (timer_main_loop_returns_iff_unthreaded
                     [fired_pass; quiet_pass; contended_pass] stopping_pool)
              _ _ Hrun) as [Hth _].
  change ([fired_pass] ++ quiet_pass :: [contended_pass])
    with [fired_pass; quiet_pass; contended_pass] in Hrun.
  rewrite Hrun. exact Hth.
Defined.

Lemma trace_of_bind {A B} (m : M A) (k : A -> M B) (s : coordinator) :
  trace_of (bind m k s) =
    match m s with
    | Ret a s1 tr1 => tr1 ++ trace_of (k a s1)
    | Halt _ _ tr1 => tr1
    end.
Proof.
  unfold bind. destruct (m s) as [a s1 tr1|h s1 tr1]; [|reflexivity].
  destruct (k a s1); reflexivity.
Qed.





Lemma u64_add_apart (x k : Z) :
  1 <= k < u64_modulus -> u64_add x k <> x.
Proof.
  unfold u64_add, u64_modulus. intros Hk Heq.
  assert (Hx : 0 <= x < 2 ^ 64).
  { rewrite <- Heq. apply Z.mod_pos_bound. lia. }
  assert (Hmod : (x + k - x) mod 2 ^ 64 = 0).
  { rewrite Zminus_mod, Heq, (Z.mod_small x) by lia.
    rewrite Z.sub_diag. reflexivity. }
  replace (x + k - x) with k in Hmod by lia.
  rewrite Z.mod_small in Hmod by lia. lia.
Qed.

(** [wait_until] for a thread that takes the role and is woken. *)
Lemma wait_until_elected (next : Timestamp) (others : interference)
    (s : coordinator) :
  g_threaded s = true -> g_kicked s = false -> next <> InfFuture ->
  g_has_timed_waiter s = false \/ next < g_timed_waiter_deadline s ->
  wait_until next (Some others) s =
    let s2 := after_wakeup (u64_add (g_timed_waiter_generation s) 1)
                (others (elected next s)) in
    if g_kicked s2
    then Ret true (set_kicked false s2)
           [MuLock; CvWait g_cv_wait next; ConsumeKick; MuUnlock]
    else Ret true s2 [MuLock; CvWait g_cv_wait next; MuUnlock].
Proof.
  intros Hth Hk Hnext Hrole.
  rewrite wait_until_cases, elect_timed_waiter_cases, Hth, Hk.
  cbn [negb].
  destruct (Z.eqb_spec next InfFuture) as [|_]; [contradiction|].
  cbn [negb andb].
  assert (Hc : negb (g_has_timed_waiter s) ||
               (next <? g_timed_waiter_deadline s) = true).
  { destruct Hrole as [-> | Hlt]; [reflexivity|].
    apply Z.ltb_lt in Hlt. rewrite Hlt. apply orb_true_r. }
  rewrite Hc. reflexivity.
Qed.

(** X4.  A kick that comes before a worker has gone to sleep is not
    lost: in a threaded coordinator, [wait_until] called next after
    [grpc_kick_poller] does not sleep, whatever deadline it is given; it
    acknowledges the kick and returns [true], and the coordinator is
    left without a timed waiter, one generation further, with the kick
    cleared. *)
Theorem kick_before_wait_until (s : coordinator) (next : Timestamp)
    (wake : option interference) (Hthreaded : g_threaded s = true) :
  exists s' tr,
    (grpc_kick_poller ;; wait_until next wake) s = Ret true s' tr /\
    tr = [MuLock; CvSignal g_cv_wait; MuUnlock;
          MuLock; ConsumeKick; MuUnlock] /\
    count is_cv_wait tr = 0%nat /\
    g_kicked s' = false /\
    g_has_timed_waiter s' = false /\
    g_timed_waiter_deadline s' = InfFuture /\
    g_timed_waiter_generation s' = u64_add (g_timed_waiter_generation s) 1 /\
    g_wakeups s' = g_wakeups s /\
    g_thread_count s' = g_thread_count s /\
    g_waiter_count s' = g_waiter_count s.
Proof.
  destruct s as [th st tc wc cts k h d g w].
  cbn [g_threaded] in Hthreaded. subst th.
  unfold bind. cbn [grpc_kick_poller].
  change (grpc_kick_poller
            (mkCoordinator true st tc wc cts k h d g w))
    with (Ret tt (mkCoordinator true st tc wc cts true false InfFuture
                    (u64_add g 1) w)
            [MuLock; CvSignal g_cv_wait; MuUnlock]).
  cbv beta iota.
  rewrite wait_until_cases. cbn [g_threaded g_kicked negb].
  do 2 eexists. split; [reflexivity|]. repeat split.
Qed.

Lemma kick_before_wait_until_witness :
  g_threaded pool_with_timed_waiter = true /\
  exists s' tr,
    (grpc_kick_poller ;; wait_until 40 None) pool_with_timed_waiter =
      Ret true s' tr /\
    count is_cv_wait tr = 0%nat /\
    g_has_timed_waiter s' = false.
Proof.
  split; [reflexivity|].
  destruct (kick_before_wait_until pool_with_timed_waiter 40 None eq_refl)
    as (s' & tr & Hrun & _ & Hcount & _ & Hhas & _).
  exists s', tr. repeat split; assumption.
Defined.

(** X5.  A thread that has taken the role and wakes up to the
    generation it holds counts one wake-up (modulo [2^64]), gives up the
    role and puts the deadline back at the infinite future; it slept
    until [next], and it returns [true]. *)
Theorem timed_waiter_counts_wakeup (s : coordinator) (next : Timestamp)
    (others : interference)
    (Hthreaded : g_threaded s = true) (Hkicked : g_kicked s = false)
    (Hnext : next <> InfFuture)
    (Hrole : g_has_timed_waiter s = false \/ next < g_timed_waiter_deadline s)
    (Hsame : g_timed_waiter_generation (others (elected next s)) =
             g_timed_waiter_generation (elected next s)) :
  exists s' tr,
    wait_until next (Some others) s = Ret true s' tr /\
    In (CvWait g_cv_wait next) tr /\
    g_wakeups s' = u64_add (g_wakeups (others (elected next s))) 1 /\
    g_has_timed_waiter s' = false /\
    g_timed_waiter_deadline s' = InfFuture /\
    g_timed_waiter_generation s' = u64_add (g_timed_waiter_generation s) 1 /\
    g_kicked s' = false.
Proof.
  rewrite (wait_until_elected next others s Hthreaded Hkicked Hnext Hrole).
  cbv zeta. unfold after_wakeup. rewrite Hsame.
  assert (Hg : g_timed_waiter_generation (elected next s) =
               u64_add (g_timed_waiter_generation s) 1)
    by (destruct s; reflexivity).
  rewrite Hg in *. rewrite Z.eqb_refl.
  destruct (others (elected next s)) as [th st tc wc cts k h d g w].
  cbn [g_timed_waiter_generation] in Hsame. subst g.
  destruct k; do 2 eexists; (split; [reflexivity|]);
    (split; [cbn; auto|]); repeat split.
Qed.

Lemma timed_waiter_counts_wakeup_witness :
  g_threaded idle_pool = true /\ g_kicked idle_pool = false /\
  100 <> InfFuture /\ g_has_timed_waiter idle_pool = false /\
  exists s' tr,
    wait_until 100 (Some no_interference) idle_pool = Ret true s' tr /\
    g_wakeups s' = 1.
Proof.
  assert (Hnext : 100 <> InfFuture) by discriminate.
  repeat (split; [first [reflexivity | exact Hnext]|]).
  destruct (timed_waiter_counts_wakeup idle_pool 100 no_interference
              eq_refl eq_refl Hnext (or_introl eq_refl) eq_refl)
    as (s' & tr & Hrun & _ & Hw & _).
  exists s', tr. split; [exact Hrun|]. rewrite Hw. reflexivity.
Defined.

(** X6.  The generation is what lets an earlier deadline take the role
    over.  When a thread sleeps as the timed waiter for [next_a] and
    another thread calls [wait_until] with a strictly earlier [next_b],
    the second takes the role; the first, woken afterwards, finds a
    generation that is not its own, counts no wake-up and leaves the
    role and the deadline of the second in place. *)
Theorem earlier_deadline_takes_over (s : coordinator)
    (next_a next_b : Timestamp)
    (Hthreaded : g_threaded s = true) (Hkicked : g_kicked s = false)
    (Hnext : next_a <> InfFuture)
    (Hrole : g_has_timed_waiter s = false \/
             next_a < g_timed_waiter_deadline s)
    (Hfinite : next_b <> InfFuture) (Hearlier : next_b < next_a) :
  wait_until next_b None (elected next_a s) =
    Halt (Parked g_cv_wait) (elected next_b (elected next_a s))
      [MuLock; CvWait g_cv_wait next_b] /\
  exists s',
    wait_until next_a (Some (others_step (OtherWaitEnter next_b))) s =
      Ret true s' [MuLock; CvWait g_cv_wait next_a; MuUnlock] /\
    s' = elected next_b (elected next_a s) /\
    g_has_timed_waiter s' = true /\
    g_timed_waiter_deadline s' = next_b /\
    g_wakeups s' = g_wakeups s /\
    g_timed_waiter_generation s' =
      u64_add (u64_add (g_timed_waiter_generation s) 1) 1.
Proof.
  assert (Hpark : wait_until next_b None (elected next_a s) =
            Halt (Parked g_cv_wait) (elected next_b (elected next_a s))
              [MuLock; CvWait g_cv_wait next_b]).
  { rewrite wait_until_cases, elect_timed_waiter_cases.
    destruct s as [th st tc wc cts k h d g w].
    cbn [g_threaded g_kicked] in Hthreaded, Hkicked. subst th k.
    unfold elected.
    cbn [g_threaded g_kicked g_has_timed_waiter g_timed_waiter_deadline
         g_timed_waiter_generation set_timed_waiter_deadline
         set_has_timed_waiter set_timed_waiter_generation negb orb].
    destruct (Z.eqb_spec next_b InfFuture) as [|_]; [contradiction|].
    apply Z.ltb_lt in Hearlier. rewrite Hearlier. reflexivity. }
  split; [exact Hpark|].
  rewrite (wait_until_elected next_a _ s Hthreaded Hkicked Hnext Hrole).
  cbv zeta. unfold others_step. rewrite Hpark. cbn [state_of].
  unfold after_wakeup.
  assert (Hg : g_timed_waiter_generation (elected next_b (elected next_a s)) =
               u64_add (u64_add (g_timed_waiter_generation s) 1) 1)
    by (destruct s; reflexivity).
  rewrite Hg.
  destruct (Z.eqb_spec (u64_add (g_timed_waiter_generation s) 1)
              (u64_add (u64_add (g_timed_waiter_generation s) 1) 1))
    as [Heq | _].
  { symmetry in Heq. apply u64_add_apart in Heq; [contradiction|].
    unfold u64_modulus. lia. }
  destruct s as [th st tc wc cts k h d g w].
  cbn [g_kicked] in Hkicked. subst k.
  eexists. split; [reflexivity|]. repeat split.
Qed.

Lemma earlier_deadline_takes_over_witness :
  g_threaded idle_pool = true /\ g_kicked idle_pool = false /\
  100 <> InfFuture /\ g_has_timed_waiter idle_pool = false /\
  30 <> InfFuture /\ 30 < 100 /\
  exists s',
    wait_until 100 (Some (others_step (OtherWaitEnter 30))) idle_pool =
      Ret true s' [MuLock; CvWait g_cv_wait 100; MuUnlock] /\
    g_timed_waiter_deadline s' = 30.
Proof.
  assert (Ha : 100 <> InfFuture) by discriminate.
  assert (Hb : 30 <> InfFuture) by discriminate.
  assert (Hlt : 30 < 100) by lia.
  repeat (split; [first [reflexivity | assumption]|]).
  destruct (earlier_deadline_takes_over idle_pool 100 30 eq_refl eq_refl
              Ha (or_introl eq_refl) Hb Hlt)
    as (_ & s' & Hrun & _ & _ & Hd & _).
  exists s'. split; assumption.
Defined.

(** X7.  Kicks end a timed sleep without a wake-up being counted.  When
    one or more (fewer than [2^64]) calls of [grpc_kick_poller] come
    while a thread sleeps as the timed waiter, the thread wakes to a
    generation that is not its own: it leaves [g_wakeups] alone,
    acknowledges the kick once, and returns [true] with the kick
    cleared and no timed waiter recorded. *)
Theorem kick_ends_timed_sleep (s : coordinator) (next : Timestamp) (n : N)
    (Hthreaded : g_threaded s = true) (Hkicked : g_kicked s = false)
    (Hnext : next <> InfFuture)
    (Hrole : g_has_timed_waiter s = false \/ next < g_timed_waiter_deadline s)
    (Hfew : Z.of_N (N.succ n) < u64_modulus) :
  exists s',
    wait_until next (Some (kicks (N.succ n))) s =
      Ret true s' [MuLock; CvWait g_cv_wait next; ConsumeKick; MuUnlock] /\
    g_wakeups s' = g_wakeups s /\
    g_kicked s' = false /\
    g_has_timed_waiter s' = false /\
    g_timed_waiter_deadline s' = InfFuture /\
    g_timed_waiter_generation s' =
      u64_add (u64_add (g_timed_waiter_generation s) 1) (Z.of_N (N.succ n)).
Proof.
  rewrite (wait_until_elected next _ s Hthreaded Hkicked Hnext Hrole).
  cbv zeta. rewrite kicks_succ_state. unfold after_wakeup.
  assert (Hg : g_timed_waiter_generation (elected next s) =
               u64_add (g_timed_waiter_generation s) 1)
    by (destruct s; reflexivity).
  rewrite Hg.
  fold (u64_add (u64_add (g_timed_waiter_generation s) 1)
          (Z.of_N (N.succ n))).
  set (g1 := u64_add (g_timed_waiter_generation s) 1) in *.
  set (g2 := u64_add g1 (Z.of_N (N.succ n))).
  assert (Hne : g1 <> g2).
  { intro Heq. symmetry in Heq. unfold g2 in Heq.
    apply u64_add_apart in Heq; [contradiction|].
    rewrite N2Z.inj_succ in *. lia. }
  apply Z.eqb_neq in Hne.
  destruct s as [th st tc wc cts k h d g w].
  cbn [g_timed_waiter_generation set_timed_waiter_generation
       set_timed_waiter_deadline set_has_timed_waiter set_kicked
       g_threaded g_start_threaded g_thread_count g_waiter_count
       g_completed_threads g_kicked g_has_timed_waiter
       g_timed_waiter_deadline g_wakeups elected].
  rewrite Hne. cbn [g_kicked].
  eexists. split; [reflexivity|]. repeat split.
Qed.

Lemma kick_ends_timed_sleep_witness :
  g_threaded idle_pool = true /\ g_kicked idle_pool = false /\
  100 <> InfFuture /\ g_has_timed_waiter idle_pool = false /\
  Z.of_N (N.succ 2) < u64_modulus /\
  exists s',
    wait_until 100 (Some (kicks 3)) idle_pool =
      Ret true s' [MuLock; CvWait g_cv_wait 100; ConsumeKick; MuUnlock] /\
    g_wakeups s' = g_wakeups idle_pool.
Proof.
  assert (Ha : 100 <> InfFuture) by discriminate.
  assert (Hfew : Z.of_N (N.succ 2) < u64_modulus) by reflexivity.
  repeat (split; [first [reflexivity | assumption]|]).
  destruct (kick_ends_timed_sleep idle_pool 100 2 eq_refl eq_refl
              Ha (or_introl eq_refl) Hfew)
    as (s' & Hrun & Hw & _).
  exists s'. split; assumption.
Defined.

(** X8.  While the coordinator is threaded, a worker that goes off to
    run timers leaves a waiter behind: if it was counted, the count of
    waiters is at least one when [run_some_timers] lets go of the mutex
    for the flush, and a thread was started exactly when the caller was
    the only waiter. *)
Theorem run_some_timers_leaves_a_waiter (s : coordinator)
    (Hthreaded : g_threaded s = true) (Hcounted : 1 <= g_waiter_count s) :
  exists s1 tr1,
    run_some_timers_begin s = Ret tt s1 tr1 /\
    1 <= g_waiter_count s1 /\
    g_threaded s1 = true /\
    (count is_thread_start tr1 = 1%nat <-> g_waiter_count s = 1) /\
    (count is_thread_start tr1 = 0%nat <-> g_waiter_count s <> 1) /\
    g_thread_count s1 - g_waiter_count s1 =
      g_thread_count s - g_waiter_count s + 1.
Proof.
  rewrite run_some_timers_begin_cases. cbv zeta. rewrite Hthreaded.
  rewrite andb_true_r.
  destruct s as [th st tc wc cts k h d g w].
  cbn [g_threaded g_waiter_count] in *. subst th.
  destruct (Z.eqb_spec (wc - 1) 0) as [Hz | Hnz].
  - do 2 eexists. split; [reflexivity|].
    unfold spawned. cbn. repeat split; intros; try lia; try discriminate.
  - do 2 eexists. split; [reflexivity|].
    destruct h; cbn; repeat split; intros; try lia; try discriminate.
Qed.

Lemma run_some_timers_leaves_a_waiter_witness :
  g_threaded idle_pool = true /\ 1 <= g_waiter_count idle_pool /\
  exists s1 tr1,
    run_some_timers_begin idle_pool = Ret tt s1 tr1 /\
    1 <= g_waiter_count s1.
Proof.
  assert (Hc : 1 <= g_waiter_count idle_pool) by (cbn; lia).
  split; [reflexivity|]. split; [exact Hc|].
  destruct (run_some_timers_leaves_a_waiter idle_pool eq_refl Hc)
    as (s1 & tr1 & Hrun & Hw & _).
  exists s1, tr1. split; assumption.
Defined.

(** X9.  A worker told [GRPC_TIMERS_NOT_CHECKED] sleeps without a
    deadline and never takes the role, whatever the timer engine left in
    [next]: in a threaded coordinator with no kick pending its first
    steps are to take the mutex and to wait on [g_cv_wait] until the
    infinite future, and as long as it is not woken the coordinator is
    as it was when the answer came. *)
Theorem contended_worker_sleeps_untimed (p : pass) (passes : list pass)
    (s : coordinator)
    (Hanswer : check_result p = GRPC_TIMERS_NOT_CHECKED)
    (Hthreaded : g_threaded (while_checking p s) = true)
    (Hkicked : g_kicked (while_checking p s) = false) :
  firstn 2 (trace_of (timer_main_loop (p :: passes) s)) =
    [MuLock; CvWait g_cv_wait InfFuture] /\
  (wake_up p = None ->
   timer_main_loop (p :: passes) s =
     Halt (Parked g_cv_wait) (while_checking p s)
       [MuLock; CvWait g_cv_wait InfFuture]).
Proof.
  cbn [timer_main_loop]. rewrite Hanswer.
  unfold bind at 1 3, unlocked, modify.
  set (s0 := while_checking p s) in *.
  assert (Hw : wait_until InfFuture (wake_up p) s0 =
            match wake_up p with
            | None =>
                Halt (Parked g_cv_wait) s0 [MuLock; CvWait g_cv_wait InfFuture]
            | Some others =>
                let s2 := after_wakeup
                            (u64_sub (g_timed_waiter_generation s0) 1)
                            (others s0) in
                if g_kicked s2
                then Ret true (set_kicked false s2)
                       [MuLock; CvWait g_cv_wait InfFuture;
                        ConsumeKick; MuUnlock]
                else Ret true s2
                       [MuLock; CvWait g_cv_wait InfFuture; MuUnlock]
            end).
  { rewrite wait_until_cases, elect_timed_waiter_cases, Hthreaded, Hkicked.
    reflexivity. }
  unfold bind. rewrite Hw.
  destruct (wake_up p) as [others|].
  - split; [|discriminate]. cbv zeta.
    destruct (g_kicked (after_wakeup _ (others s0))); cbn [negb];
      destruct (timer_main_loop passes _); reflexivity.
  - split; reflexivity.
Qed.

Lemma contended_worker_sleeps_untimed_witness :
  check_result contended_pass = GRPC_TIMERS_NOT_CHECKED /\
  g_threaded (while_checking contended_pass idle_pool) = true /\
  g_kicked (while_checking contended_pass idle_pool) = false /\
  wake_up contended_pass = None /\
  timer_main_loop [contended_pass] idle_pool =
    Halt (Parked g_cv_wait) idle_pool [MuLock; CvWait g_cv_wait InfFuture].
Proof.
  repeat (split; [reflexivity|]).
  apply (proj2 (contended_worker_sleeps_untimed contended_pass []
                  idle_pool eq_refl eq_refl eq_refl)).
  reflexivity.
Defined.

Lemma count_of_others (f g : event -> bool) (tr : trace) :
  forallb f tr = true ->
  (forall e, f e = true -> g e = false) ->
  count g tr = 0%nat.
Proof.
  intros Hall Hfg. unfold count.
  induction tr as [|e tr IH]; cbn in *; [reflexivity|].
  apply andb_prop in Hall. destruct Hall as [He Htr].
  rewrite (Hfg e He). auto.
Qed.

Lemma gc_completed_threads_events (during_join : interference)
    (s : coordinator) :
  forallb is_stop_loop_event (trace_of (gc_completed_threads during_join s))
    = true.
Proof.
  rewrite gc_completed_threads_cases.
  destruct (g_completed_threads s) as [|c cts]; [reflexivity|].
  cbn [trace_of forallb is_stop_loop_event andb].
  rewrite forallb_app. cbn [forallb is_stop_loop_event andb].
  rewrite andb_true_r.
  clear. induction cts as [|c' cts IH]; [reflexivity | exact IH].
Qed.

Lemma stop_threads_loop_events (turns : list turn) :
  forall s,
    forallb is_stop_loop_event (trace_of (stop_threads_loop turns s)) = true.
Proof.
  induction turns as [|t turns' IH]; intros s; cbn [stop_threads_loop];
    rewrite trace_of_bind; unfold get at 1; cbn [app];
    destruct (0 <? g_thread_count s); try reflexivity.
  rewrite trace_of_bind. unfold gpr_cv_wait at 1.
  cbn [app forallb is_stop_loop_event andb].
  rewrite trace_of_bind.
  pose proof (gc_completed_threads_events (while_joining t)
                (while_asleep t s)) as Hgc.
  destruct (gc_completed_threads (while_joining t) (while_asleep t s))
    as [[] s2 tr2|h s2 tr2]; cbn [trace_of] in Hgc; [|exact Hgc].
  rewrite forallb_app, Hgc. apply IH.
Qed.

(** With joins that nobody disturbs, the loop of [stop_threads] ends
    with an empty list of completed threads if it had one to start with
    or had to wait at all. *)
Lemma stop_threads_loop_collects (turns : list turn) :
  Forall (fun t => leaves_completed_threads (while_joining t)) turns ->
  forall s s' tr,
    stop_threads_loop turns s = Ret tt s' tr ->
    g_completed_threads s = [] \/ 0 < g_thread_count s ->
    g_completed_threads s' = [].
Proof.
  induction 1 as [|t turns' Ht Hturns IH]; intros s s' tr;
    cbn [stop_threads_loop]; unfold bind at 1, get;
    destruct (Z.ltb_spec 0 (g_thread_count s)) as [Hpos | Hle].
  - discriminate.
  - unfold ret. intros H [Hnil | Hlt]; [|lia].
    injection H as <- _. exact Hnil.
  - unfold bind at 1, gpr_cv_wait. unfold bind at 1.
    rewrite gc_completed_threads_cases.
    set (s1 := while_asleep t s).
    assert (Hgc : forall s2,
               (match g_completed_threads s1 with
                | [] => s1
                | _ :: _ => while_joining t (set_completed_threads [] s1)
                end) = s2 ->
               g_completed_threads s2 = []).
    { intros s2 <-. destruct (g_completed_threads s1) eqn:Hc;
        [exact Hc|]. rewrite Ht. destruct s1; reflexivity. }
    destruct (g_completed_threads s1) as [|c cts];
      match goal with
      | |- context [stop_threads_loop turns' ?x] =>
          specialize (IH x); specialize (Hgc x eq_refl);
          destruct (stop_threads_loop turns' x) as [[] s3 tr3|h s3 tr3];
          [|discriminate]
      end;
      intros H _; injection H as <- _;
      apply (IH s3 tr3 eq_refl); left; exact Hgc.
  - unfold ret. intros H [Hnil | Hlt]; [|lia].
    injection H as <- _. exact Hnil.
Qed.

(** X10.  [stop_threads] on a threaded coordinator broadcasts
    [g_cv_wait] exactly once and never signals it.  It returns only
    when no worker is counted any more, and until then it sleeps on
    [g_cv_shutdown]; so [grpc_timer_manager_shutdown] destroys the mutex
    exactly when the stop has returned.  If workers were counted and no
    handle is deposited while the stopping thread joins, every handle
    has been taken off the list of completed threads by the time it
    returns. *)
Theorem stop_threads_waits_for_workers (s : coordinator) (turns : list turn)
    (Hthreaded : g_threaded s = true) :
  count (is_broadcast g_cv_wait) (trace_of (stop_threads turns s)) = 1%nat /\
  count (is_signal g_cv_wait) (trace_of (stop_threads turns s)) = 0%nat /\
  match stop_threads turns s with
  | Ret _ s' _ => g_thread_count s' <= 0 /\ g_wakeups s' = 0
  | Halt h s' _ => h = Parked g_cv_shutdown /\ 0 < g_thread_count s'
  end /\
  count is_mu_destroy (trace_of (grpc_timer_manager_shutdown turns s)) =
    (if returned (stop_threads turns s) then 1%nat else 0%nat) /\
  (Forall (fun t => leaves_completed_threads (while_joining t)) turns ->
   0 < g_thread_count s ->
   returned (stop_threads turns s) = true ->
   g_completed_threads (state_of (stop_threads turns s)) = []).
Proof.
  unfold grpc_timer_manager_shutdown. rewrite trace_of_bind.
  rewrite (stop_threads_threaded turns s Hthreaded).
  pose proof (stop_threads_loop_events turns (set_threaded false s)) as Hev.
  pose proof (stop_threads_loop_result turns (set_threaded false s)) as Hres.
  pose proof (fun H => stop_threads_loop_collects turns H
                         (set_threaded false s)) as Hcol.
  assert (Hb : count (is_broadcast g_cv_wait)
                 (trace_of (stop_threads_loop turns (set_threaded false s)))
               = 0%nat).
  { apply (count_of_others _ _ _ Hev). intros [] He; try discriminate He;
      reflexivity. }
  assert (Hs : count (is_signal g_cv_wait)
                 (trace_of (stop_threads_loop turns (set_threaded false s)))
               = 0%nat).
  { apply (count_of_others _ _ _ Hev). intros [] He; try discriminate He;
      reflexivity. }
  assert (Hd : count is_mu_destroy
                 (trace_of (stop_threads_loop turns (set_threaded false s)))
               = 0%nat).
  { apply (count_of_others _ _ _ Hev). intros [] He; try discriminate He;
      reflexivity. }
  destruct (stop_threads_loop turns (set_threaded false s))
    as [[] s1 tr1|h s1 tr1]; cbn [trace_of state_of returned] in *.
  - change (MuLock :: CvBroadcast g_cv_wait :: tr1 ++ [MuUnlock])
      with ([MuLock; CvBroadcast g_cv_wait] ++ tr1 ++ [MuUnlock]).
    rewrite !count_app, Hb, Hs, Hd.
    split; [reflexivity|]. split; [reflexivity|].
    split; [destruct s1; split; [exact Hres | reflexivity]|].
    split; [reflexivity|].
    intros Hturns Hpos _.
    specialize (Hcol Hturns s1 tr1 eq_refl).
    destruct s1 as [th st tc wc cts k hh d g w]. cbn in *.
    apply Hcol. right. destruct s. exact Hpos.
  - change (MuLock :: CvBroadcast g_cv_wait :: tr1)
      with ([MuLock; CvBroadcast g_cv_wait] ++ tr1).
    rewrite !count_app, Hb, Hs, Hd.
    split; [reflexivity|]. split; [reflexivity|].
    split; [exact Hres|]. split; [reflexivity|].
    intros _ _ Hf. discriminate Hf.
Qed.

Lemma stop_threads_waits_for_workers_witness :
  g_threaded idle_pool = true /\
  Forall (fun t => leaves_completed_threads (while_joining t))
    [last_worker_leaves 7] /\
  0 < g_thread_count idle_pool /\
  returned (stop_threads [last_worker_leaves 7] idle_pool) = true /\
  g_completed_threads
    (state_of (stop_threads [last_worker_leaves 7] idle_pool)) = [].
Proof.
  assert (Hturns : Forall (fun t => leaves_completed_threads (while_joining t))
                     [last_worker_leaves 7]).
  { constructor; [|constructor]. intros x. reflexivity. }
  assert (Hpos : 0 < g_thread_count idle_pool) by (cbn; lia).
  split; [reflexivity|]. split; [exact Hturns|]. split; [exact Hpos|].
  split; [reflexivity|].
  apply (stop_threads_waits_for_workers idle_pool [last_worker_leaves 7]
           eq_refl); [exact Hturns | exact Hpos | reflexivity].
Defined.

(** A handle deposited while the stopping thread is busy joining is
    still on the list when [stop_threads] returns. *)
Example stop_threads_leaves_late_handle :
  stop_threads
    [mkTurn (others_run [OtherCleanup 0%nat])
            (others_run [OtherCleanup 1%nat])]
    (mkCoordinator true true 2 2 [] false false InfFuture 0 0) =
  Ret tt (mkCoordinator false true 0 0 [1%nat] false false InfFuture 0 0)
    [MuLock; CvBroadcast g_cv_wait; CvWait g_cv_shutdown InfFuture;
     MuUnlock; ThreadJoin 0%nat; MuLock; MuUnlock].
Proof. reflexivity. Qed.

(** ** The pool as a whole *)

Example busy_day_runs :
  pool_run busy_day (boot static_init) =
  Some (mkPool
          (mkCoordinator false true 0 0 [] false false InfFuture 3 0)
          [Gone; Gone]).
Proof. reflexivity. Qed.

Lemma tally_app (f : phase -> Z) (a b : list phase) :
  tally f (a ++ b) = tally f a + tally f b.
Proof. induction a as [|x a IH]; cbn [tally app]; lia. Qed.

Lemma tally_set_phase (f : phase -> Z) (l : list phase) :
  forall i old new,
    nth_error l i = Some old ->
    tally f (set_phase i new l) = tally f l - f old + f new.
Proof.
  induction l as [|x l IH]; intros [|i] old new H; cbn in *;
    try discriminate.
  - injection H as ->. lia.
  - rewrite (IH i old new H). lia.
Qed.

Lemma tally_waiter_live (l : list phase) :
  0 <= tally is_waiter l <= tally is_live l.
Proof.
  induction l as [|x l IH]; cbn [tally]; [lia|].
  destruct x; cbn [is_waiter is_live]; lia.
Qed.

(** The ways [wait_until] can let go of the mutex for the first time. *)
Lemma wait_until_first_release (next : Timestamp) (s : coordinator) :
  (g_threaded s = false /\
   wait_until next None s = Ret false s [MuLock; MuUnlock]) \/
  (g_threaded s = true /\ g_kicked s = true /\
   wait_until next None s =
     Ret true (set_kicked false s) [MuLock; ConsumeKick; MuUnlock]) \/
  (g_threaded s = true /\ g_kicked s = false /\
   elect_timed_waiter next s =
     Ret (u64_add (g_timed_waiter_generation s) 1, next) (elected next s) [] /\
   wait_until next None s =
     Halt (Parked g_cv_wait) (elected next s)
       [MuLock; CvWait g_cv_wait next]) \/
  (g_threaded s = true /\ g_kicked s = false /\
   exists sleep,
     elect_timed_waiter next s =
       Ret (u64_sub (g_timed_waiter_generation s) 1, sleep) s [] /\
     wait_until next None s =
       Halt (Parked g_cv_wait) s [MuLock; CvWait g_cv_wait sleep]).
Proof.
  rewrite wait_until_cases, elect_timed_waiter_cases.
  destruct (g_threaded s); cbn [negb]; [|auto].
  destruct (g_kicked s); [auto|].
  destruct (negb (next =? InfFuture) &&
            (negb (g_has_timed_waiter s) ||
             (next <? g_timed_waiter_deadline s))).
  - right. right. left. auto.
  - right. right. right. eauto.
Qed.

Lemma stop_threads_enter_state (s : coordinator) :
  let s' := state_of (stop_threads [] s) in
  g_thread_count s' = g_thread_count s /\
  g_waiter_count s' = g_waiter_count s /\
  g_has_timed_waiter s' = g_has_timed_waiter s /\
  g_timed_waiter_generation s' = g_timed_waiter_generation s.
Proof.
  destruct s as [th st tc wc cts k h d g w]. cbv zeta.
  destruct th; run; [destruct (0 <? tc)|]; repeat split.
Qed.

Lemma stop_threads_resume_state (s : coordinator) :
  let s' := others_step OtherStopResume s in
  g_thread_count s' = g_thread_count s /\
  g_waiter_count s' = g_waiter_count s /\
  g_has_timed_waiter s' = g_has_timed_waiter s /\
  g_timed_waiter_generation s' = g_timed_waiter_generation s.
Proof.
  destruct s as [th st tc wc cts k h d g w]. cbv zeta.
  unfold others_step, bind. rewrite gc_completed_threads_cases.
  destruct cts; repeat split.
Qed.

Lemma gc_completed_threads_state (s : coordinator) :
  let s' := state_of (gc_completed_threads no_interference s) in
  g_thread_count s' = g_thread_count s /\
  g_waiter_count s' = g_waiter_count s /\
  g_has_timed_waiter s' = g_has_timed_waiter s /\
  g_timed_waiter_generation s' = g_timed_waiter_generation s.
Proof.
  cbv zeta. rewrite gc_completed_threads_cases.
  destruct s as [th st tc wc [|c cts] k h d g w]; repeat split.
Qed.

Lemma pool_step_counts (m : move) (p p' : pool) :
  counts_agree p -> pool_step m p = Some p' -> counts_agree p'.
Proof.
  destruct p as [s ws]. unfold counts_agree. cbn [shared workers].
  intros [Ht Hw] Hstep.
  destruct m; cbn [pool_step shared workers] in Hstep;
    try (destruct (nth_error ws i) as [[]|] eqn:Hi; try discriminate Hstep).
  - (* Check *)
    unfold check_move in Hstep. cbn [shared workers] in Hstep.
    assert (Hwait : forall next0,
      match wait_until next0 None s with
      | Ret true s' _ => Some (mkPool s' ws)
      | Ret false s' _ => Some (mkPool s' (set_phase i Leaving ws))
      | Halt (Parked _) s' _ =>
          match elect_timed_waiter next0 s with
          | Ret locals _ _ =>
              Some (mkPool s' (set_phase i (Asleep (fst locals)) ws))
          | Halt _ _ _ => None
          end
      | Halt Crashed _ _ => None
      end = Some p' ->
      g_thread_count (shared p') = tally is_live (workers p') /\
      g_waiter_count (shared p') = tally is_waiter (workers p')).
    { intros next0 H.
      destruct (wait_until_first_release next0 s)
        as [(_ & Hr) | [(_ & _ & Hr) | [(_ & _ & He & Hr) |
                                         (_ & _ & sleep & He & Hr)]]];
        rewrite Hr in H; try rewrite He in H; injection H as <-;
        cbn [shared workers fst];
        rewrite ?(tally_set_phase _ _ _ _ _ Hi);
        cbn [is_live is_waiter];
        destruct s; cbn in *; lia. }
    destruct answer; [exact (Hwait _ Hstep) | exact (Hwait _ Hstep) |].
    rewrite run_some_timers_begin_cases in Hstep. cbv zeta in Hstep.
    injection Hstep as <-. cbn [shared workers].
    rewrite !tally_app, !(tally_set_phase _ _ _ _ _ Hi).
    cbn [is_live is_waiter].
    destruct ((g_waiter_count s - 1 =? 0) && g_threaded s);
      [|destruct (g_has_timed_waiter s)];
      destruct s; cbn in *; lia.
  - (* Wake *)
    injection Hstep as <-. cbn [shared workers].
    rewrite !(tally_set_phase _ _ _ _ _ Hi). cbn [is_live is_waiter].
    unfold bind. rewrite timed_waiter_wakeup_cases, wait_until_finish_cases.
    destruct s as [th st tc wc cts k h d g w]. cbn in *.
    destruct (my_timed_waiter_generation =? g), k; cbn; lia.
  - (* Collect *)
    destruct (g_completed_threads s) eqn:Hc; injection Hstep as <-;
      cbn [shared workers];
      rewrite !(tally_set_phase _ _ _ _ _ Hi); cbn [is_live is_waiter];
      [rewrite run_some_timers_end_cases
      |unfold bind, gpr_mu_lock, emit; rewrite gc_completed_threads_cases];
      rewrite Hc; destruct s; cbn in *; lia.
  - (* Rejoin *)
    injection Hstep as <-. cbn [shared workers].
    rewrite !(tally_set_phase _ _ _ _ _ Hi). cbn [is_live is_waiter].
    destruct s; cbn in *; lia.
  - (* Exit *)
    injection Hstep as <-. cbn [shared workers].
    rewrite !(tally_set_phase _ _ _ _ _ Hi). cbn [is_live is_waiter].
    rewrite timer_thread_cleanup_cases. destruct s; cbn in *; lia.
  - (* Kick *)
    injection Hstep as <-. destruct s; cbn in *; lia.
  - (* Start *)
    injection Hstep as <-. cbn [shared workers].
    rewrite !tally_app, start_threads_cases.
    destruct s as [[] st tc wc cts k h d g w]; cbn in *; lia.
  - (* StopEnter *)
    injection Hstep as <-. cbn [shared workers].
    destruct (stop_threads_enter_state s) as (-> & -> & _). auto.
  - (* StopResume *)
    injection Hstep as <-. cbn [shared workers].
    pose proof (stop_threads_resume_state s) as Hr.
    cbv zeta in Hr. unfold others_step in Hr.
    destruct Hr as (-> & -> & _). auto.
  - (* SetStartThreaded *)
    injection Hstep as <-. destruct s; cbn in *; lia.
  - (* StopCollect *)
    injection Hstep as <-. cbn [shared workers].
    destruct (gc_completed_threads_state s) as (-> & -> & _). auto.
Qed.

Lemma pool_run_counts (ms : list move) :
  forall p p', counts_agree p -> pool_run ms p = Some p' -> counts_agree p'.
Proof.
  induction ms as [|m ms IH]; intros p p' Hp Hrun; cbn [pool_run] in Hrun.
  - injection Hrun as <-. exact Hp.
  - destruct (pool_step m p) as [p1|] eqn:Hstep; [|discriminate].
    exact (IH p1 p' (pool_step_counts m p p1 Hp Hstep) Hrun).
Qed.

Lemma boot_counts (s : coordinator) : counts_agree (boot s).
Proof.
  destruct s as [th [] tc wc cts k h d g w]; split; reflexivity.
Qed.

(** X11.  However the critical sections of the workers, of kicks and of
    starts and stops are interleaved after [grpc_timer_manager_init],
    [g_thread_count] is the number of worker threads that have not yet
    run [timer_thread_cleanup], and [g_waiter_count] is the number of
    those that are not in the middle of [run_some_timers]; so
    [0 <= g_waiter_count <= g_thread_count] at every point where the
    mutex is free. *)
Theorem pool_counts_invariant (s : coordinator) (ms : list move) (p : pool)
    (Hrun : pool_run ms (boot s) = Some p) :
  g_thread_count (shared p) = tally is_live (workers p) /\
  g_waiter_count (shared p) = tally is_waiter (workers p) /\
  0 <= g_waiter_count (shared p) <= g_thread_count (shared p).
Proof.
  destruct (pool_run_counts ms (boot s) p (boot_counts s) Hrun) as [Ht Hw].
  split; [exact Ht|]. split; [exact Hw|].
  rewrite Ht, Hw. apply tally_waiter_live.
Qed.

Lemma pool_counts_invariant_witness :
  pool_run (firstn 6 busy_day) (boot static_init) =
    Some (mkPool (mkCoordinator true true 2 2 [] false true 70 3 0)
            [Probing; Asleep 3]) /\
  0 <= 2 <= 2.
Proof.
  assert (Hrun : pool_run (firstn 6 busy_day) (boot static_init) =
                 Some (mkPool (mkCoordinator true true 2 2 [] false true 70 3 0)
                         [Probing; Asleep 3])) by reflexivity.
  split; [exact Hrun|].
  exact (proj2 (proj2 (pool_counts_invariant static_init (firstn 6 busy_day)
                         _ Hrun))).
Defined.

Lemma tally_holds_nonneg (g : Z) (l : list phase) : 0 <= tally (holds g) l.
Proof.
  induction l as [|x l IH]; cbn [tally]; [lia|].
  destruct x; cbn [holds]; try lia.
  destruct (my_timed_waiter_generation =? g); lia.
Qed.

Lemma tally_holds_ahead (g : Z) (l : list phase) :
  0 <= g -> g + 1 < u64_max -> Forall (is_past g) l ->
  tally (holds (g + 1)) l = 0.
Proof.
  intros Hg Hroom. induction 1 as [|x l Hx Hl IH]; cbn [tally]; [reflexivity|].
  rewrite IH. destruct x; cbn [holds is_past] in *; try reflexivity.
  destruct (Z.eqb_spec my_timed_waiter_generation (g + 1)); lia.
Qed.

Lemma is_past_mono (g g' : Z) (l : list phase) :
  g <= g' -> Forall (is_past g) l -> Forall (is_past g') l.
Proof.
  intros Hle. apply Forall_impl. intros [] H; cbn [is_past] in *; auto.
  destruct H; [left; lia | right; assumption].
Qed.

Lemma Forall_set_phase (P : phase -> Prop) (new : phase) (l : list phase) :
  forall i, Forall P l -> P new -> Forall P (set_phase i new l).
Proof.
  induction l as [|x l IH]; intros [|i] Hl Hnew; cbn [set_phase];
    inversion Hl; subst; auto.
Qed.

Lemma started_quiet {A} (r : result A) (g : Z) :
  tally (holds g) (started r) = 0 /\ Forall (is_past g) (started r).
Proof.
  unfold started. induction (count is_thread_start (trace_of r)) as [|n IH];
    cbn [repeat tally holds]; [auto|].
  destruct IH as [-> IHf]. split; [reflexivity|].
  constructor; [exact I | exact IHf].
Qed.

Lemma u64_sub_1_past (g : Z) :
  0 <= g < u64_max -> u64_sub g 1 <= g \/ u64_sub g 1 = u64_max.
Proof.
  unfold u64_sub, u64_max, u64_modulus. intros Hg.
  destruct (Z.eq_dec g 0) as [-> | Hnz]; [right; reflexivity|].
  left. rewrite Z.mod_small by lia. lia.
Qed.

Lemma pool_step_timed_waiter (m : move) (room : Z) (p p' : pool) :
  0 <= room ->
  timed_waiter_agrees (room + 1) p -> pool_step m p = Some p' ->
  timed_waiter_agrees room p'.
Proof.
  destruct p as [s ws]. unfold timed_waiter_agrees.
  cbn [shared workers]. cbv zeta.
  intros Hroom (Hg & Hmax & Hpast & Hholds) Hstep.
  assert (Hsmall : u64_add (g_timed_waiter_generation s) 1 =
                   g_timed_waiter_generation s + 1)
    by (apply u64_add_1_small; lia).
  assert (Hahead : tally (holds (g_timed_waiter_generation s + 1)) ws = 0)
    by (apply tally_holds_ahead; [lia | lia | exact Hpast]).
  assert (Hmono : Forall (is_past (g_timed_waiter_generation s + 1)) ws)
    by (apply (is_past_mono (g_timed_waiter_generation s)); [lia | exact Hpast]).
  destruct m; cbn [pool_step shared workers] in Hstep;
    try (destruct (nth_error ws i) as [[]|] eqn:Hi; try discriminate Hstep).
  - (* Check *)
    unfold check_move in Hstep. cbn [shared workers] in Hstep.
    assert (Hwait : forall next0,
      match wait_until next0 None s with
      | Ret true s' _ => Some (mkPool s' ws)
      | Ret false s' _ => Some (mkPool s' (set_phase i Leaving ws))
      | Halt (Parked _) s' _ =>
          match elect_timed_waiter next0 s with
          | Ret locals _ _ =>
              Some (mkPool s' (set_phase i (Asleep (fst locals)) ws))
          | Halt _ _ _ => None
          end
      | Halt Crashed _ _ => None
      end = Some p' ->
      0 <= g_timed_waiter_generation (shared p') /\
      g_timed_waiter_generation (shared p') + room < u64_max /\
      Forall (is_past (g_timed_waiter_generation (shared p'))) (workers p') /\
      tally (holds (g_timed_waiter_generation (shared p'))) (workers p') =
        (if g_has_timed_waiter (shared p') then 1 else 0)).
    { intros next0 H.
      destruct (wait_until_first_release next0 s)
        as [(_ & Hr) | [(_ & _ & Hr) | [(_ & _ & He & Hr) |
                                         (_ & _ & sleep & He & Hr)]]];
        rewrite Hr in H; try rewrite He in H; injection H as <-;
        cbn [shared workers fst].
      - rewrite (tally_set_phase _ _ _ _ _ Hi). cbn [holds].
        repeat split; try lia.
        apply Forall_set_phase; [exact Hpast | exact I].
      - destruct s; cbn in *. repeat split; try lia; assumption.
      - assert (Hgen : g_timed_waiter_generation (elected next0 s) =
                       g_timed_waiter_generation s + 1)
          by (rewrite <- Hsmall; destruct s; reflexivity).
        assert (Hhas : g_has_timed_waiter (elected next0 s) = true)
          by (destruct s; reflexivity).
        rewrite Hgen, Hhas, Hsmall, (tally_set_phase _ _ _ _ _ Hi), Hahead.
        cbn [holds]. rewrite Z.eqb_refl.
        repeat split; try lia.
        apply Forall_set_phase; [exact Hmono|]. cbn [is_past]. lia.
      - rewrite (tally_set_phase _ _ _ _ _ Hi). cbn [holds].
        pose proof (u64_sub_1_neq (g_timed_waiter_generation s)) as Hne.
        apply Z.eqb_neq in Hne. rewrite Hne.
        repeat split; try lia.
        apply Forall_set_phase; [exact Hpast|]. cbn [is_past].
        apply u64_sub_1_past. lia. }
    destruct answer; [exact (Hwait _ Hstep) | exact (Hwait _ Hstep) |].
    injection Hstep as <-. cbn [shared workers].
    assert (Hsame :
      g_timed_waiter_generation (state_of (run_some_timers_begin s)) =
        g_timed_waiter_generation s /\
      g_has_timed_waiter (state_of (run_some_timers_begin s)) =
        g_has_timed_waiter s).
    { rewrite run_some_timers_begin_cases. cbv zeta.
      destruct s as [th st tc wc cts k h d g w]. cbn.
      destruct ((wc - 1 =? 0) && th); cbn; auto. }
    destruct Hsame as [-> ->].
    destruct (started_quiet (run_some_timers_begin s)
                (g_timed_waiter_generation s)) as [Hq Hqf].
    rewrite tally_app, Hq, (tally_set_phase _ _ _ _ _ Hi). cbn [holds].
    repeat split; try lia.
    apply Forall_app. split; [|exact Hqf].
    apply Forall_set_phase; [exact Hpast | exact I].
  - (* Wake *)
    injection Hstep as <-. cbn [shared workers].
    rename my_timed_waiter_generation into my.
    assert (Hfin :
      let s' := state_of ((timed_waiter_wakeup my ;; wait_until_finish) s) in
      g_timed_waiter_generation s' = g_timed_waiter_generation s /\
      g_has_timed_waiter s' =
        (if my =? g_timed_waiter_generation s then false
         else g_has_timed_waiter s)).
    { unfold bind. rewrite timed_waiter_wakeup_cases, wait_until_finish_cases.
      destruct s as [th st tc wc cts k h d g w]. cbn.
      destruct (my =? g), k; cbn; auto. }
    cbv zeta in Hfin. destruct Hfin as [-> ->].
    rewrite (tally_set_phase _ _ _ _ _ Hi). cbn [holds].
    pose proof (tally_holds_nonneg (g_timed_waiter_generation s)
                  (set_phase i Probing ws)) as Hnn.
    rewrite (tally_set_phase _ _ _ _ _ Hi) in Hnn. cbn [holds] in Hnn.
    split; [lia|]. split; [lia|].
    split; [apply Forall_set_phase; [exact Hpast | exact I]|].
    destruct (my =? g_timed_waiter_generation s);
      destruct (g_has_timed_waiter s); lia.
  - (* Collect *)
    assert (Hsame : forall s',
      s' = state_of (run_some_timers_end no_interference s) \/
      s' = state_of ((gpr_mu_lock ;; gc_completed_threads no_interference) s) ->
      g_timed_waiter_generation s' = g_timed_waiter_generation s /\
      g_has_timed_waiter s' = g_has_timed_waiter s).
    { intros s' [-> | ->];
        [rewrite run_some_timers_end_cases
        |unfold bind, gpr_mu_lock, emit; rewrite gc_completed_threads_cases];
        destruct s as [th st tc wc [|c cts] k h d g w]; cbn; auto. }
    destruct (g_completed_threads s); injection Hstep as <-;
      cbn [shared workers];
      match goal with
      | |- context [g_has_timed_waiter ?x] =>
          destruct (Hsame x) as [-> ->]; [auto|]
      end;
      rewrite (tally_set_phase _ _ _ _ _ Hi); cbn [holds];
      (repeat split; try lia);
      apply Forall_set_phase; [exact Hpast | exact I | exact Hpast | exact I].
  - (* Rejoin *)
    injection Hstep as <-. cbn [shared workers].
    rewrite (tally_set_phase _ _ _ _ _ Hi). cbn [holds].
    destruct s; cbn in *. repeat split; try lia.
    apply Forall_set_phase; [exact Hpast | exact I].
  - (* Exit *)
    injection Hstep as <-. cbn [shared workers].
    rewrite timer_thread_cleanup_cases.
    rewrite (tally_set_phase _ _ _ _ _ Hi). cbn [holds].
    destruct s; cbn in *. repeat split; try lia.
    apply Forall_set_phase; [exact Hpast | exact I].
  - (* Kick *)
    injection Hstep as <-. cbn [shared workers].
    destruct s as [th st tc wc cts k h d g w]. cbn in *.
    rewrite Hsmall, Hahead. repeat split; try lia. exact Hmono.
  - (* Start *)
    injection Hstep as <-. cbn [shared workers].
    assert (Hsame :
      g_timed_waiter_generation (state_of (start_threads s)) =
        g_timed_waiter_generation s /\
      g_has_timed_waiter (state_of (start_threads s)) =
        g_has_timed_waiter s).
    { rewrite start_threads_cases.
      destruct s as [[] st tc wc cts k h d g w]; cbn; auto. }
    destruct Hsame as [-> ->].
    destruct (started_quiet (start_threads s) (g_timed_waiter_generation s))
      as [Hq Hqf].
    rewrite tally_app, Hq. repeat split; try lia.
    apply Forall_app. split; assumption.
  - (* StopEnter *)
    injection Hstep as <-. cbn [shared workers].
    destruct (stop_threads_enter_state s) as (_ & _ & -> & ->).
    repeat split; try lia; assumption.
  - (* StopResume *)
    injection Hstep as <-. cbn [shared workers].
    pose proof (stop_threads_resume_state s) as Hr.
    cbv zeta in Hr. unfold others_step in Hr.
    destruct Hr as (_ & _ & -> & ->).
    repeat split; try lia; assumption.
  - (* SetStartThreaded *)
    injection Hstep as <-. destruct s; cbn in *.
    repeat split; try lia; assumption.
  - (* StopCollect *)
    injection Hstep as <-. cbn [shared workers].
    destruct (gc_completed_threads_state s) as (_ & _ & -> & ->).
    repeat split; try lia; assumption.
Qed.

Lemma pool_run_timed_waiter (ms : list move) :
  forall room p p',
    0 <= room ->
    timed_waiter_agrees (room + Z.of_nat (length ms)) p ->
    pool_run ms p = Some p' ->
    timed_waiter_agrees room p'.
Proof.
  induction ms as [|m ms IH]; intros room p p' Hroom Hp Hrun;
    cbn [pool_run length] in *.
  - injection Hrun as <-. rewrite Z.add_0_r in Hp. exact Hp.
  - destruct (pool_step m p) as [p1|] eqn:Hstep; [|discriminate].
    apply (IH room p1 p' Hroom); [|exact Hrun].
    apply (pool_step_timed_waiter m _ p p1); [lia | | exact Hstep].
    rewrite Nat2Z.inj_succ in Hp.
    replace (room + Z.of_nat (length ms) + 1)
      with (room + Z.succ (Z.of_nat (length ms))) by lia.
    exact Hp.
Qed.

Lemma boot_timed_waiter (room : Z) (s : coordinator) :
  0 <= g_timed_waiter_generation s ->
  g_timed_waiter_generation s + room < u64_max ->
  timed_waiter_agrees room (boot s).
Proof.
  intros Hg Hroom.
  unfold timed_waiter_agrees.
  destruct s as [th [] tc wc cts k h d g w]; cbn in *;
    repeat split; try lia; repeat constructor.
Qed.

(** X12.  The generation singles out the timed waiter.  However the
    critical sections are interleaved after [grpc_timer_manager_init],
    and as long as the generation has not come to wrap, at most one
    sleeping worker holds the current generation (so at most one will
    count a wake-up), and [g_has_timed_waiter] is set exactly when there
    is one. *)
Theorem pool_timed_waiter_invariant (s : coordinator) (ms : list move)
    (p : pool)
    (Hgeneration : 0 <= g_timed_waiter_generation s)
    (Hroom : g_timed_waiter_generation s + Z.of_nat (length ms) < u64_max)
    (Hrun : pool_run ms (boot s) = Some p) :
  let holders :=
    tally (holds (g_timed_waiter_generation (shared p))) (workers p) in
  0 <= holders <= 1 /\
  (g_has_timed_waiter (shared p) = true <-> holders = 1) /\
  (g_has_timed_waiter (shared p) = false <-> holders = 0).
Proof.
  cbv zeta.
  assert (Hboot : timed_waiter_agrees (0 + Z.of_nat (length ms)) (boot s))
    by (apply boot_timed_waiter; [exact Hgeneration | lia]).
  destruct (pool_run_timed_waiter ms 0 (boot s) p (Z.le_refl 0) Hboot Hrun)
    as (_ & _ & _ & Hholds).
  rewrite Hholds. destruct (g_has_timed_waiter (shared p));
    repeat split; intros; try lia; try congruence.
Qed.

Lemma pool_timed_waiter_invariant_witness :
  0 <= g_timed_waiter_generation static_init /\
  g_timed_waiter_generation static_init +
    Z.of_nat (length (firstn 6 busy_day)) < u64_max /\
  pool_run (firstn 6 busy_day) (boot static_init) =
    Some (mkPool (mkCoordinator true true 2 2 [] false true 70 3 0)
            [Probing; Asleep 3]) /\
  tally (holds 3) [Probing; Asleep 3] = 1.
Proof.
  assert (Hg : 0 <= g_timed_waiter_generation static_init) by (cbn; lia).
  assert (Hroom : g_timed_waiter_generation static_init +
                  Z.of_nat (length (firstn 6 busy_day)) < u64_max)
    by reflexivity.
  assert (Hrun : pool_run (firstn 6 busy_day) (boot static_init) =
                 Some (mkPool (mkCoordinator true true 2 2 [] false true 70 3 0)
                         [Probing; Asleep 3])) by reflexivity.
  repeat (split; [assumption|]).
  apply (pool_timed_waiter_invariant static_init (firstn 6 busy_day) _
           Hg Hroom Hrun).
  reflexivity.
Defined.

(** The two moves a sleeping worker makes in the pool are the two halves
    of its call of [wait_until]. *)
Lemma wait_until_park_then_wake (next : Timestamp) (others : interference)
    (s s1 : coordinator) (locals : Z * Timestamp) (tr : trace) :
  wait_until next None s = Halt (Parked g_cv_wait) s1 tr ->
  elect_timed_waiter next s = Ret locals s1 [] ->
  state_of (wait_until next (Some others) s) =
    state_of ((timed_waiter_wakeup (fst locals) ;; wait_until_finish)
                (others s1)) /\
  returned (wait_until next (Some others) s) = true.
Proof.
  rewrite !wait_until_cases.
  destruct (g_threaded s); cbn [negb]; [|discriminate].
  destruct (g_kicked s); [discriminate|].
  intros Hpark Helect. rewrite Helect in *. destruct locals as [my sleep].
  cbv zeta. cbn [fst]. unfold bind.
  rewrite timed_waiter_wakeup_cases, wait_until_finish_cases.
  fold (after_wakeup my (others s1)).
  destruct (g_kicked (after_wakeup my (others s1))); split; reflexivity.
Qed.

(** X13.  [grpc_timer_manager_set_start_threaded] touches nothing but
    [g_start_threaded], and decides what the next
    [grpc_timer_manager_init] does, whatever the coordinator held
    before: after [true] it comes up threaded with one worker started
    and counted, after [false] it comes up not threaded, with no thread
    started and none counted. *)
Theorem set_start_threaded_then_init (s : coordinator) (enabled : bool) :
  grpc_timer_manager_set_start_threaded enabled s =
    Ret tt (set_start_threaded enabled s) [] /\
  exists s' tr,
    (grpc_timer_manager_set_start_threaded enabled ;;
     grpc_timer_manager_init) s = Ret tt s' tr /\
    count is_thread_start tr = (if enabled then 1%nat else 0%nat) /\
    g_threaded s' = enabled /\
    g_thread_count s' = (if enabled then 1 else 0) /\
    g_waiter_count s' = (if enabled then 1 else 0) /\
    g_start_threaded s' = enabled /\
    g_kicked s' = g_kicked s /\
    g_wakeups s' = g_wakeups s.
Proof.
  split; [reflexivity|].
  destruct s as [th st tc wc cts k h d g w].
  destruct enabled; do 2 eexists; (split; [reflexivity|]); repeat split.
Qed.
